(** * exercise_utils: helpers over event-camera recordings

    A shallow embedding of [src/exercise_utils.py] and the properties of
    its crop-origin arithmetic, its two crop traversals, its aggregation
    loop, its statistics report and its recording loader.

    The module calls into the event-camera processing library
    ([dv_processing]): event stores, the region filter, the recording
    reader.  Those calls are modelled in [Module dv] below; the functions
    of [exercise_utils.py] themselves are transcribed line by line. *)

From Stdlib Require Import ZArith QArith Qround List Lia.
From Stdlib Require SpecFloat.
From stdpp Require Import base tactics option list sorting gmap strings.

Local Open Scope Z_scope.

(** ** Python numbers used by the crop-origin arithmetic *)

Module Py.

(** [width / 2] is Python's true division: on integers it yields a
    float.  Every intermediate value of [_calculate_crop_origin] on
    integer arguments is an integer or a half-integer, which binary64
    represents exactly up to magnitude 2^52; on that range, which holds
    every pixel coordinate, the float arithmetic is the exact rational
    arithmetic used here.  [Binary64._calculate_crop_origin] below is
    the same function on IEEE 754 binary64, rounding and overflow
    included; [binary64_crop_origin] proves that the two agree on the
    range [within_exact_range]. *)
Definition float : Type := Q.

Definition of_int (n : Z) : float := inject_Z n.

(** [a / b], true division. *)
Definition truediv (a b : float) : float := (a / b)%Q.

(** [a - b]. *)
Definition sub (a b : float) : float := (a - b)%Q.

(** [int(x)] on a float: the integral part, rounding toward zero. *)
Definition int (x : float) : Z := Z.quot (Qnum x) (Z.pos (Qden x)).

End Py.

(** ** Crop origin *)

(** [_calculate_crop_origin(center, width, height)]:
<<
    origin_x = center[0] - width / 2
    origin_y = center[1] - height / 2
    return int(origin_x), int(origin_y)
>>
    in exact arithmetic.  This is what the code returns on integer
    arguments of magnitude at most 2^51 ([binary64_crop_origin]); the
    statements that fix the value of the origin are made of
    [Binary64._calculate_crop_origin] on that range. *)
Definition _calculate_crop_origin (center : Z * Z) (width height : Z) : Z * Z :=
  let origin_x := Py.sub (Py.of_int (fst center)) (Py.truediv (Py.of_int width) (Py.of_int 2)) in
  let origin_y := Py.sub (Py.of_int (snd center)) (Py.truediv (Py.of_int height) (Py.of_int 2)) in
  (Py.int origin_x, Py.int origin_y).

(** The midpoint [c - size/2] as an exact rational, as the specification
    writes it. *)
Definition midpoint (c size : Z) : Q := (inject_Z c - inject_Z size / 2)%Q.

(** Specification-side rounding: truncation toward zero is floor on the
    non-negative rationals and ceiling on the negative ones. *)
Definition truncate_toward_zero (q : Q) : Z :=
  if Qle_bool 0 q then Qfloor q else Qceiling q.

(** Specification-side origin of the crop-origin contract: floor on both
    coordinates. *)
Definition floor_origin (center : Z * Z) (width height : Z) : Z * Z :=
  (Qfloor (midpoint (fst center) width), Qfloor (midpoint (snd center) height)).

(** Specification-side origin with truncation toward zero. *)
Definition truncated_origin (center : Z * Z) (width height : Z) : Z * Z :=
  (truncate_toward_zero (midpoint (fst center) width),
   truncate_toward_zero (midpoint (snd center) height)).

(** ** The event-camera library, as this module uses it *)

Module dv.

(** An event: a timestamped pixel coordinate with its polarity. *)
Record Event : Type := mkEvent {
  timestamp : Z;
  x : Z;
  y : Z;
  polarity : bool
}.

#[global] Instance Event_eq_dec : EqDecision Event.
Proof. solve_decision. Defined.

(** Modelled from the spec: [dv.EventStore], "an ordered, appendable
    aggregate of Events, queryable for size, duration and the full
    ordered timestamp sequence".  The store is its sequence of events;
    how the library shards that sequence in memory is not observable
    through the queries used here.  Batches reach [add] in time order
    ("guaranteed by the upstream source, not enforced by this code"),
    so the store's refusal of an out-of-order batch plays no part. *)
Abbreviation EventStore := (list Event) (only parsing).

(** [dv.EventStore()] *)
Definition EventStore_new : EventStore := [].

(** [self.add(store)] *)
Definition add (self store : EventStore) : EventStore := self ++ store.

(** [self.size()] *)
Definition size (self : EventStore) : Z := Z.of_nat (length self).

(** [self.timestamps()], the array of all timestamps in store order. *)
Definition timestamps (self : EventStore) : list Z := timestamp <$> self.

(** [self.duration()] in microseconds: "span between first and last
    timestamp"; zero for the empty store. *)
Definition duration (self : EventStore) : Z :=
  match head self, last self with
  | Some e0, Some e1 => timestamp e1 - timestamp e0
  | _, _ => 0
  end.

(** A rectangle (x, y, width, height). *)
Definition Rect : Type := Z * Z * Z * Z.

(** Modelled from the spec: the region filter "retains only Events
    falling within a rectangular pixel area": the half-open rectangle
    [x0, x0 + width) by [y0, y0 + height). *)
Definition contains (roi : Rect) (e : Event) : Prop :=
  let '(x0, y0, w, h) := roi in
  x0 <= x e < x0 + w /\ y0 <= y e < y0 + h.

#[global] Instance contains_dec roi e : Decision (contains roi e).
Proof. destruct roi as [[[x0 y0] w] h]. cbn. apply _. Defined.

(** Modelled from the spec: [dv.EventRegionFilter].  The filter object
    buffers what [accept] hands it; [generateEvents] returns the
    retained events of the buffer in order and leaves the buffer
    empty.  The object is kept as explicit state because
    [crop_area_all_event_streams] reuses one filter for every batch. *)
Record EventRegionFilter : Type := mkFilter {
  roi : Rect;
  buffer : EventStore
}.

(** [dv.EventRegionFilter(roi)] *)
Definition EventRegionFilter_new (r : Rect) : EventRegionFilter :=
  {| roi := r; buffer := EventStore_new |}.

(** [self.accept(store)] *)
Definition accept (self : EventRegionFilter) (store : EventStore)
  : EventRegionFilter :=
  {| roi := roi self; buffer := add (buffer self) store |}.

(** [self.generateEvents()]: the result and the filter afterwards. *)
Definition generateEvents (self : EventRegionFilter)
  : EventStore * EventRegionFilter :=
  (filter (contains (roi self)) (buffer self),
   {| roi := roi self; buffer := EventStore_new |}).

(** [dv.io.MonoCameraRecording]: the reader interface.  [R] is the
    state of a reader object; [getNextEventBatch] returns the batch
    ([None] for Python's [None]) and the reader as the call leaves it. *)
Class MonoCameraRecording (R : Type) : Type := {
  open : string -> R;
  isEventStreamAvailable : R -> bool;
  getEventResolution : R -> Z * Z;
  isRunning : R -> bool;
  getNextEventBatch : R -> option EventStore * R
}.

End dv.

Import dv.

(** ** The root logger *)

Module logging.

Inductive Level : Type := DEBUG | INFO | WARNING | ERROR | CRITICAL.

Definition levelno (l : Level) : Z :=
  match l with
  | DEBUG => 10 | INFO => 20 | WARNING => 30 | ERROR => 40 | CRITICAL => 50
  end.

Record LogRecord : Type := mkRecord {
  levelname : Level;
  message : string
}.

(** What the handler has written to [sys.stdout] so far. *)
Definition Output : Type := list LogRecord.

(** [logging.basicConfig(stream=sys.stdout, level=logging.INFO, ...)] *)
Definition basicConfig_level : Level := INFO.

Definition isEnabledFor (l : Level) : bool :=
  levelno basicConfig_level <=? levelno l.

(** [logger.critical(msg)] *)
Definition critical (msg : string) (out : Output) : Output :=
  if isEnabledFor CRITICAL
  then out ++ [ {| levelname := CRITICAL; message := msg |} ]
  else out.

End logging.

(** ** exercise_utils.py *)

Section ExerciseUtils.

Context {R : Type} {reader : MonoCameraRecording R}.

Definition no_event_stream_message : string :=
  "Something went wrong. The camera data does not have an event stream available.
".

(** [load_data_from(aedat4_file)] *)
Definition load_data_from (aedat4_file : string) (out : logging.Output)
  : R * logging.Output :=
  let reader := open aedat4_file in
  if negb (isEventStreamAvailable reader)
  then (reader, logging.critical no_event_stream_message out)
  else (reader, out).

(** [event_stream_resolution(camera_data)] *)
Definition event_stream_resolution (camera_data : R) : Z * Z :=
  let resolution := getEventResolution camera_data in
  resolution.

(** The [while data.isRunning()] loop of [get_events_from]; [fuel]
    bounds the number of times the loop condition is evaluated and
    [None] means the bound was reached with the loop still running. *)
Fixpoint get_events_from_loop (fuel : nat) (data : R) (events : EventStore)
  : option (EventStore * R) :=
  match fuel with
  | O => None
  | S fuel' =>
      if isRunning data then
        let '(temp_event_store, data') := getNextEventBatch data in
        match temp_event_store with
        | Some store => get_events_from_loop fuel' data' (add events store)
        | None => get_events_from_loop fuel' data' events
        end
      else Some (events, data)
  end.

(** [get_events_from(data)]: the events and the reader as drained. *)
Definition get_events_from (fuel : nat) (data : R) : option (EventStore * R) :=
  let events := EventStore_new in
  get_events_from_loop fuel data events.

(** [crop_area(aedat4_file, center, crop_width, crop_height)] *)
Definition crop_area (fuel : nat) (aedat4_file : string) (center : Z * Z)
    (crop_width crop_height : Z) (out : logging.Output)
  : option EventStore * logging.Output :=
  let crop_origin := _calculate_crop_origin center crop_width crop_height in
  let region_filter :=
    EventRegionFilter_new (fst crop_origin, snd crop_origin, crop_width, crop_height) in
  let '(data, out) := load_data_from aedat4_file out in
  match get_events_from fuel data with
  | None => (None, out)
  | Some (events, _) =>
      let region_filter := accept region_filter events in
      let '(filtered_events, _) := generateEvents region_filter in
      (Some filtered_events, out)
  end.

(** The [while data.isRunning()] loop of [crop_area_all_event_streams],
    threading the reader, the shared filter object and the output
    store. *)
Fixpoint crop_area_all_event_streams_loop (fuel : nat) (data : R)
    (region_filter : EventRegionFilter) (cropped_event_streams : EventStore)
  : option EventStore :=
  match fuel with
  | O => None
  | S fuel' =>
      if isRunning data then
        let '(temp_event_store, data') := getNextEventBatch data in
        match temp_event_store with
        | Some store =>
            let region_filter := accept region_filter store in
            let '(filtered_events, region_filter) := generateEvents region_filter in
            if 0 <? size filtered_events
            then crop_area_all_event_streams_loop fuel' data' region_filter
                   (add cropped_event_streams filtered_events)
            else crop_area_all_event_streams_loop fuel' data' region_filter
                   cropped_event_streams
        | None =>
            crop_area_all_event_streams_loop fuel' data' region_filter
              cropped_event_streams
        end
      else Some cropped_event_streams
  end.

(** [crop_area_all_event_streams(aedat4_file, center, crop_width, crop_height)] *)
Definition crop_area_all_event_streams (fuel : nat) (aedat4_file : string)
    (center : Z * Z) (crop_width crop_height : Z) (out : logging.Output)
  : option EventStore * logging.Output :=
  let crop_origin := _calculate_crop_origin center crop_width crop_height in
  let region_filter :=
    EventRegionFilter_new (fst crop_origin, snd crop_origin, crop_width, crop_height) in
  let cropped_event_streams := EventStore_new in
  let '(data, out) := load_data_from aedat4_file out in
  (crop_area_all_event_streams_loop fuel data region_filter cropped_event_streams, out).

(** *** What a reader delivers *)

(** The reader after [n] calls of [getNextEventBatch]. *)
Fixpoint reader_after (n : nat) (data : R) : R :=
  match n with
  | O => data
  | S n' => reader_after n' (snd (getNextEventBatch data))
  end.

(** The results of the first [n] calls of [getNextEventBatch]. *)
Fixpoint batches_pulled (n : nat) (data : R) : list (option EventStore) :=
  match n with
  | O => []
  | S n' =>
      fst (getNextEventBatch data)
      :: batches_pulled n' (snd (getNextEventBatch data))
  end.

(** The reader reports running before each of its first [n] pulls and
    not running after the [n]-th. *)
Fixpoint stops_after (n : nat) (data : R) : Prop :=
  match n with
  | O => isRunning data = false
  | S n' =>
      isRunning data = true
      /\ stops_after n' (snd (getNextEventBatch data))
  end.

End ExerciseUtils.

(** The rectangle both crop variants hand to the region filter. *)
Definition crop_rect (center : Z * Z) (crop_width crop_height : Z) : Rect :=
  (fst (_calculate_crop_origin center crop_width crop_height),
   snd (_calculate_crop_origin center crop_width crop_height),
   crop_width, crop_height).

(** The non-null batches of a pull sequence, in arrival order. *)
Definition non_null (batches : list (option EventStore)) : list EventStore :=
  omap id batches.

(** The sum of the sizes of the batches. *)
Definition total_size (batches : list EventStore) : Z :=
  foldr (fun store acc => size store + acc) 0 batches.

(** *** Statistics report *)

(** Python exceptions raised on the paths modelled here. *)
Inductive Exception : Type := IndexError | OverflowError | ValueError.

(** The outcome of a call that may raise. *)
Inductive result (A : Type) : Type :=
| Ok (a : A)
| Raise (e : Exception).
Arguments Ok {A} a.
Arguments Raise {A} e.

#[global] Instance result_ret : MRet result := fun A a => Ok a.

#[global] Instance result_bind : MBind result := fun A B k r =>
  match r with
  | Ok a => k a
  | Raise e => Raise e
  end.

(** ** The crop origin on IEEE 754 binary64 *)

(** [_calculate_crop_origin] as CPython evaluates it on [int] arguments:
    floats are binary64 numbers, here the [spec_float] of the standard
    library with its rounding to nearest, ties to even. *)
Module Binary64.

Import SpecFloat.

Definition prec : Z := 53.
Definition emax : Z := 1024.

(** A float result that overflowed: CPython raises [OverflowError] where
    an [int] is too large for a float. *)
Definition finite_or_overflow (x : spec_float) : result spec_float :=
  match x with
  | S754_infinity _ => Raise OverflowError
  | _ => Ok x
  end.

(** [float(n)], the conversion of the [int] operand of a mixed
    operation: the nearest binary64. *)
Definition of_int (n : Z) : result spec_float :=
  finite_or_overflow (binary_normalize prec emax n 0 false).

(** [n / 2] on an [int]: the quotient n * 2^-1, correctly rounded. *)
Definition truediv_2 (n : Z) : result spec_float :=
  finite_or_overflow (binary_normalize prec emax n (-1) false).

(** [a - b] on floats. *)
Definition sub (a b : spec_float) : spec_float := SFsub prec emax a b.

(** [int(x)]: the integral part toward zero; infinities raise
    [OverflowError] and NaN raises [ValueError]. *)
Definition int (x : spec_float) : result Z :=
  match x with
  | S754_zero _ => Ok 0
  | S754_finite s m e =>
      let a := if 0 <=? e then Z.pos m * 2 ^ e else Z.quot (Z.pos m) (2 ^ (- e)) in
      Ok (if s then - a else a)
  | S754_infinity _ => Raise OverflowError
  | S754_nan => Raise ValueError
  end.

(** [c - size / 2]: the quotient is evaluated first, then [c] is
    converted for the subtraction. *)
Definition origin_coordinate (c size : Z) : result spec_float :=
  half ← truediv_2 size;
  c' ← of_int c;
  Ok (sub c' half).

(** [_calculate_crop_origin(center, width, height)] *)
Definition _calculate_crop_origin (center : Z * Z) (width height : Z)
  : result (Z * Z) :=
  origin_x ← origin_coordinate (fst center) width;
  origin_y ← origin_coordinate (snd center) height;
  ix ← int origin_x;
  iy ← int origin_y;
  Ok (ix, iy).

(** The binary64 number of sign [s] and value [q * 2^e0]: the mantissa
    [q] shifted left to 53 bits. *)
Definition canonical (s : bool) (q : positive) (e0 : Z) : spec_float :=
  S754_finite s (Nat.iter (Z.to_nat (53 - Z.pos (digits2_pos q))) xO q)
    (e0 + Z.pos (digits2_pos q) - 53).

(** The binary64 number of value [k * 2^e0]. *)
Definition canon (k e0 : Z) : spec_float :=
  match k with
  | Z0 => S754_zero false
  | Zpos q => canonical false q e0
  | Zneg q => canonical true q e0
  end.

End Binary64.

(** The arguments on which binary64 computes the origin coordinate
    without rounding: center coordinate and size of magnitude at most
    2^51. *)
Definition within_exact_range (c size : Z) : Prop :=
  Z.abs c <= 2 ^ 51 /\ Z.abs size <= 2 ^ 51.

Module numpy.

(** [a[i]] on a one-dimensional array: a negative index counts from the
    end, and an index outside the array raises [IndexError]. *)
Definition getitem (a : list Z) (i : Z) : result Z :=
  let n := Z.of_nat (length a) in
  let j := if i <? 0 then i + n else i in
  if (0 <=? j) && (j <? n)
  then match a !! Z.to_nat j with
       | Some v => Ok v
       | None => Raise IndexError
       end
  else Raise IndexError.

End numpy.

(** The values stored in the report: [duration()] is a time span in
    microseconds, the others are integers. *)
Inductive Value : Type :=
| Timedelta (microseconds : Z)
| Int (n : Z).

#[global] Instance Value_eq_dec : EqDecision Value.
Proof. solve_decision. Defined.

(** [events_info(events)]: the dictionary display evaluates its values in
    the order written. *)
Definition events_info (events : EventStore) : result (gmap string Value) :=
  v_duration ← Ok (Timedelta (duration events));
  v_first ← numpy.getitem (timestamps events) 0;
  v_last ← numpy.getitem (timestamps events) (-1);
  v_count ← Ok (Int (size events));
  Ok (<["events count" := v_count]>
      (<["last timestamp" := Int v_last]>
       (<["first timestamp" := Int v_first]>
        (<["duration" := v_duration]> ∅)))).

(** The report the specification describes, for given figures. *)
Definition StatsReport (d first last count : Z) : gmap string Value :=
  {[ "duration" := Timedelta d;
     "first timestamp" := Int first;
     "last timestamp" := Int last;
     "events count" := Int count ]}.

(** ** Preview *)

(** The image side of [crop_preview_area]: the event visualizer of the
    event-camera library and OpenCV.  Images stay abstract; what matters
    here is which image is built from which events at which resolution. *)
Class Imaging (Image : Type) : Type := {
  (** [dv.visualization.EventVisualizer(resolution).generateImage(events)] *)
  generateImage : Z * Z -> EventStore -> Image;
  (** [cv.hconcat([...])] *)
  hconcat : list Image -> Image;
  (** [cv.cvtColor(image, cv.COLOR_BGR2RGB)] *)
  cvtColor_BGR2RGB : Image -> Image
}.

Module plt.

(** The calls that reach Matplotlib, in the order they are made. *)
Inductive Call (Image : Type) : Type :=
| figure (figsize : Z * Z)
| title (label : string)
| imshow (image : Image)
| axis (arg : string)
| show.
Arguments figure {Image} figsize.
Arguments title {Image} label.
Arguments imshow {Image} image.
Arguments axis {Image} arg.
Arguments show {Image}.

End plt.

Section Preview.

Context {R : Type} {reader : MonoCameraRecording R}.
Context {Image : Type} {imaging : Imaging Image}.

(** [crop_preview_area(aedat4_file, center, crop_width, crop_height)]:
    the logged output and the Matplotlib calls are threaded through;
    [None] means one of the two traversals reached the bound on its
    iterations.  The commented-out OpenCV window code is a string
    expression without effect. *)
Definition crop_preview_area (fuel : nat) (aedat4_file : string)
    (center : Z * Z) (crop_width crop_height : Z)
    (out : logging.Output) (calls : list (plt.Call Image))
  : option unit * logging.Output * list (plt.Call Image) :=
  let '(data, out) := load_data_from aedat4_file out in
  let source_resolution := event_stream_resolution data in
  match get_events_from fuel data with
  | None => (None, out, calls)
  | Some (source_events, _) =>
      let '(filtered, out) :=
        crop_area fuel aedat4_file center crop_width crop_height out in
      match filtered with
      | None => (None, out, calls)
      | Some filtered_events =>
          let visualizer_input := generateImage source_resolution source_events in
          let visualizer_output := generateImage source_resolution filtered_events in
          let preview := hconcat [visualizer_input; visualizer_output] in
          (Some tt, out,
           calls ++ [ plt.figure (10, 5);
                      plt.title "Original (Left) vs Cropped (Right)";
                      plt.imshow (cvtColor_BGR2RGB preview);
                      plt.axis "off";
                      plt.show ])
      end
  end.

End Preview.

(** Images as the expressions that build them. *)
#[local] Unset Elimination Schemes.
Inductive Picture : Type :=
| Rendered (resolution : Z * Z) (events : EventStore)
| Beside (images : list Picture)
| Recoloured (image : Picture).
#[local] Set Elimination Schemes.

Definition pictures : Imaging Picture :=
  {| generateImage := Rendered; hconcat := Beside; cvtColor_BGR2RGB := Recoloured |}.

(** ** Readers for concrete runs *)

(** A recording whose reader hands out a fixed script of batches, one
    per pull, and reports not running once the script is used up. *)
Record Scripted : Type := mkScripted {
  stream_available : bool;
  resolution : Z * Z;
  script : list (option EventStore)
}.

Definition scripted_next (r : Scripted) : option EventStore * Scripted :=
  match script r with
  | [] => (None, r)
  | b :: rest =>
      (b, {| stream_available := stream_available r;
             resolution := resolution r;
             script := rest |})
  end.

Definition scripted_recording (disk : string -> Scripted)
  : MonoCameraRecording Scripted :=
  {| open := disk;
     isEventStreamAvailable := stream_available;
     getEventResolution := resolution;
     isRunning := fun r => negb (bool_decide (script r = []));
     getNextEventBatch := scripted_next |}.

(** A reader that never reports the end of its stream: every pull
    returns the same batch. *)
Definition endless_recording (b : EventStore) : MonoCameraRecording unit :=
  {| open := fun _ => tt;
     isEventStreamAvailable := fun _ => true;
     getEventResolution := fun _ => (346, 260);
     isRunning := fun _ => true;
     getNextEventBatch := fun r => (Some b, r) |}.

Definition ev (t px py : Z) : Event :=
  {| timestamp := t; x := px; y := py; polarity := true |}.

(** A small recording at 346 x 260: two batches, a null pull, a batch
    wholly outside the default crop rectangle, then the end. *)
Definition sample_script : list (option EventStore) :=
  [ Some [ev 100 130 90; ev 120 10 10; ev 150 200 100];
    None;
    Some [ev 200 5 5; ev 210 300 250];
    Some [ev 300 173 130] ].

Definition sample_disk (path : string) : Scripted :=
  if bool_decide (path = "events.aedat4")
  then {| stream_available := true; resolution := (346, 260); script := sample_script |}
  else {| stream_available := false; resolution := (0, 0); script := [] |}.

(** The reader over the sample disk. *)
Definition sample : MonoCameraRecording Scripted := scripted_recording sample_disk.

(** ** Writing a recording *)




Section Writer.

Variable packets : EventStore -> list (option EventStore).




End Writer.


(** ** Properties of the crop origin *)

Section CropOrigin.

Lemma int_midpoint (c size : Z) :
  Py.int (midpoint c size) = Z.quot (2 * c - size) 2.
Proof.
  unfold Py.int, midpoint. cbn.
  f_equal. lia.
Qed.

Lemma floor_midpoint (c size : Z) :
  Qfloor (midpoint c size) = (2 * c - size) `div` 2.
Proof.
  unfold midpoint. cbn. f_equal. lia.
Qed.

Lemma ceiling_midpoint (c size : Z) :
  Qceiling (midpoint c size) = - ((size - 2 * c) `div` 2).
Proof.
  unfold Qceiling, midpoint. cbn. do 2 f_equal. lia.
Qed.

Lemma midpoint_nonneg (c size : Z) :
  Qle_bool 0 (midpoint c size) = true <-> size <= 2 * c.
Proof.
  unfold Qle_bool, midpoint. cbn. rewrite Z.leb_le. lia.
Qed.

Lemma quot_2_trunc (n : Z) :
  Z.quot n 2 = if Z.leb 0 n then n `div` 2 else - ((- n) `div` 2).
Proof.
  destruct (Z.leb_spec 0 n) as [Hn | Hn].
  - apply Z.quot_div_nonneg; lia.
  - rewrite <- (Z.opp_involutive n) at 1.
    rewrite Z.quot_opp_l by lia.
    f_equal. apply Z.quot_div_nonneg; lia.
Qed.

Lemma int_truncates (c size : Z) :
  Py.int (midpoint c size) = truncate_toward_zero (midpoint c size).
Proof.
  rewrite int_midpoint, quot_2_trunc. unfold truncate_toward_zero.
  destruct (Qle_bool 0 (midpoint c size)) eqn:Hq.
  - apply midpoint_nonneg in Hq.
    rewrite floor_midpoint.
    destruct (Z.leb_spec 0 (2 * c - size)); [done | lia].
  - assert (Hlt : ~ size <= 2 * c).
    { intros Hle. apply midpoint_nonneg in Hle. congruence. }
    rewrite ceiling_midpoint.
    destruct (Z.leb_spec 0 (2 * c - size)); [lia |].
    do 2 f_equal. lia.
Qed.

Lemma int_floor_iff (c size : Z) :
  Py.int (midpoint c size) = Qfloor (midpoint c size)
  <-> (size <= 2 * c \/ Z.even size = true).
Proof.
  rewrite int_midpoint, floor_midpoint, quot_2_trunc.
  destruct (Z.leb_spec 0 (2 * c - size)) as [Hn | Hn].
  - split; [lia | done].
  - split.
    + intros Heq. right.
      destruct (Z.even size) eqn:Hev; [done | exfalso].
      apply (f_equal negb) in Hev. rewrite Z.negb_even in Hev. cbn in Hev.
      apply Z.odd_spec in Hev as [k ->].
      replace (- (2 * c - (2 * k + 1))) with (1 + (k - c) * 2) in Heq by lia.
      replace (2 * c - (2 * k + 1)) with (1 + (c - k - 1) * 2) in Heq by lia.
      rewrite !Z.div_add in Heq by lia.
      change (1 `div` 2) with 0 in Heq. lia.
    + intros [Hle | Hev]; [lia |].
      apply Z.even_spec in Hev as [k ->].
      replace (- (2 * c - 2 * k)) with ((k - c) * 2) by lia.
      replace (2 * c - 2 * k) with ((c - k) * 2) by lia.
      rewrite !Z.div_mul by lia. lia.
Qed.

Lemma crop_origin_unfold (cx cy w h : Z) :
  _calculate_crop_origin (cx, cy) w h
  = (Py.int (midpoint cx w), Py.int (midpoint cy h)).
Proof. reflexivity. Qed.

(** The integer [r] is the half-integer [n/2] rounded toward zero:
    it lies between zero and [n/2], less than one away from it. *)
Lemma quot_2_toward_zero (n : Z) :
  let r := Z.quot n 2 in
  Z.abs (2 * r) <= Z.abs n < Z.abs (2 * r) + 2 /\ 0 <= r * n.
Proof.
  intros r. subst r. rewrite quot_2_trunc.
  destruct (Z.leb_spec 0 n) as [Hn | Hn].
  - pose proof (Z.div_mod n 2 ltac:(lia)).
    pose proof (Z.mod_pos_bound n 2 ltac:(lia)). nia.
  - pose proof (Z.div_mod (- n) 2 ltac:(lia)).
    pose proof (Z.mod_pos_bound (- n) 2 ltac:(lia)). nia.
Qed.

(** C2, as stated, fails: at center (0,0), width 3, height 5 the floor
    of the midpoints is (-2,-3) while the code returns (-1,-2). *)
Lemma crop_origin_floor_counterexample :
  floor_origin (0, 0) 3 5 = (-2, -3)
  /\ _calculate_crop_origin (0, 0) 3 5 = (-1, -2)
  /\ ~ (forall cx cy w h, 0 < w -> 0 < h ->
          _calculate_crop_origin (cx, cy) w h = floor_origin (cx, cy) w h)
  /\ Binary64._calculate_crop_origin (0, 0) 3 5 = Ok (-1, -2)
  /\ ~ (forall cx cy w h, 0 < w -> 0 < h ->
          Binary64._calculate_crop_origin (cx, cy) w h
          = Ok (floor_origin (cx, cy) w h)).
Proof.
  split; [reflexivity |]. split; [reflexivity |]. split.
  { intros Hall. specialize (Hall 0 0 3 5 ltac:(lia) ltac:(lia)).
    discriminate Hall. }
  split; [vm_compute; reflexivity |].
  intros Hall. specialize (Hall 0 0 3 5 ltac:(lia) ltac:(lia)).
  vm_compute in Hall. discriminate Hall.
Qed.

(** In exact arithmetic the origin is the floor origin exactly when each
    midpoint is non-negative or integral. *)
Lemma exact_origin_floor_iff (cx cy w h : Z) :
  (_calculate_crop_origin (cx, cy) w h = floor_origin (cx, cy) w h
   <-> (w <= 2 * cx \/ Z.even w = true) /\ (h <= 2 * cy \/ Z.even h = true))
  /\ _calculate_crop_origin (173, 130) 100 100 = (123, 80)
  /\ _calculate_crop_origin (0, 0) 3 5 = (-1, -2).
Proof.
  split; [| split; reflexivity].
  rewrite crop_origin_unfold. unfold floor_origin. cbn [fst snd].
  rewrite <- !int_floor_iff. split.
  - intros Heq. by inversion Heq.
  - intros [-> ->]. reflexivity.
Qed.

(** In exact arithmetic the origin is the pair of midpoints truncated
    toward zero. *)
Lemma exact_origin_truncates (cx cy w h : Z) :
  let origin := _calculate_crop_origin (cx, cy) w h in
  origin = truncated_origin (cx, cy) w h
  /\ (Z.abs (2 * fst origin) <= Z.abs (2 * cx - w) < Z.abs (2 * fst origin) + 2
      /\ 0 <= fst origin * (2 * cx - w))
  /\ (Z.abs (2 * snd origin) <= Z.abs (2 * cy - h) < Z.abs (2 * snd origin) + 2
      /\ 0 <= snd origin * (2 * cy - h))
  /\ (midpoint 0 3 == - (3 # 2))%Q
  /\ fst (_calculate_crop_origin (0, 0) 3 5) = -1.
Proof.
  intros origin. subst origin. rewrite crop_origin_unfold.
  unfold truncated_origin. cbn [fst snd].
  rewrite <- !int_truncates. split; [reflexivity |].
  rewrite !int_midpoint.
  split; [apply quot_2_toward_zero |].
  split; [apply quot_2_toward_zero |].
  split; reflexivity.
Qed.

End CropOrigin.

(** ** Binary64 evaluation of the crop origin *)

Section Binary64Facts.

Import SpecFloat.
Import Binary64.

Lemma digits2_pos_size (p : positive) : digits2_pos p = Pos.size p.
Proof. induction p; cbn; congruence. Qed.

Lemma digits2_log2 (p : positive) : Z.pos (digits2_pos p) = Z.log2 (Z.pos p) + 1.
Proof. rewrite digits2_pos_size. destruct p; cbn [Z.log2 Pos.size]; lia. Qed.

Lemma digits_bound (q : positive) (b : Z) :
  0 <= b -> Z.pos q < 2 ^ b -> Z.pos (digits2_pos q) <= b.
Proof.
  intros Hb Hq. rewrite digits2_log2.
  apply Z.log2_lt_pow2 in Hq; lia.
Qed.

(** [q] followed by [j] zero bits. *)
Lemma iter_xO_value (j : nat) (q : positive) :
  Z.pos (Nat.iter j xO q) = Z.pos q * 2 ^ Z.of_nat j.
Proof.
  induction j as [| j IH]; [cbn; lia |].
  rewrite Nat2Z.inj_succ, Z.pow_succ_r by lia.
  change (Nat.iter (S j) xO q) with (xO (Nat.iter j xO q)).
  rewrite Pos2Z.inj_xO, IH. lia.
Qed.

Lemma digits_iter_xO (j : nat) (q : positive) :
  Z.pos (digits2_pos (Nat.iter j xO q)) = Z.pos (digits2_pos q) + Z.of_nat j.
Proof.
  induction j as [| j IH]; [change (Nat.iter 0 xO q) with q; lia |].
  change (Nat.iter (S j) xO q) with (xO (Nat.iter j xO q)).
  cbn [digits2_pos]. rewrite Pos2Z.inj_succ, IH. lia.
Qed.

Lemma iter_pos_nat {A : Type} (f : A -> A) (p : positive) (a : A) :
  SpecFloat.iter_pos f p a = Nat.iter (Pos.to_nat p) f a.
Proof.
  revert a. induction p as [p IH | p IH |]; intros a; cbn [SpecFloat.iter_pos].
  - rewrite !IH, Pos2Nat.inj_xI.
    replace (S (2 * Pos.to_nat p))%nat
      with (Pos.to_nat p + (Pos.to_nat p + 1))%nat by lia.
    rewrite !Nat.iter_add. reflexivity.
  - rewrite !IH, Pos2Nat.inj_xO.
    replace (2 * Pos.to_nat p)%nat with (Pos.to_nat p + Pos.to_nat p)%nat by lia.
    rewrite Nat.iter_add. reflexivity.
  - reflexivity.
Qed.

(** Shifting zero bits out to the right loses nothing. *)
Lemma shr_exact (n t : nat) (q : positive) :
  Nat.iter n shr_1
    {| shr_m := Z.pos (Nat.iter (n + t) xO q); shr_r := false; shr_s := false |}
  = {| shr_m := Z.pos (Nat.iter t xO q); shr_r := false; shr_s := false |}.
Proof.
  revert t. induction n as [| n IH]; intros t; [reflexivity |].
  change (Nat.iter (S n) shr_1 ?r) with (shr_1 (Nat.iter n shr_1 r)).
  replace (S n + t)%nat with (n + S t)%nat by lia.
  rewrite IH. reflexivity.
Qed.

Lemma fexp_normal (d : Z) : -1021 <= d -> fexp prec emax d = d - 53.
Proof. unfold fexp, SpecFloat.emin, prec, emax. lia. Qed.

Lemma shl_align_le (mx : positive) (ex ex' : Z) :
  ex' <= ex ->
  shl_align mx ex ex' = (Nat.iter (Z.to_nat (ex - ex')) xO mx, ex').
Proof.
  intros Hle. unfold shl_align.
  destruct (ex' - ex) as [| d | d] eqn:Hd; [| lia |].
  - replace (ex - ex') with 0 by lia. replace ex' with ex by lia. reflexivity.
  - rewrite Pos2Nat.inj_iter. replace (ex - ex') with (Z.pos d) by lia.
    reflexivity.
Qed.

Lemma shl_align_gt (mx : positive) (ex ex' : Z) :
  ex < ex' -> shl_align mx ex ex' = (mx, ex).
Proof.
  intros Hlt. unfold shl_align.
  destruct (ex' - ex) as [| d | d] eqn:Hd; [reflexivity | reflexivity | lia].
Qed.

(** Rounding a mantissa that is [q] followed by [n + t] zero bits, where
    [q] followed by [t] zero bits has exactly 53 bits, drops [n] zero
    bits and is exact. *)
Lemma binary_round_aux_exact (s : bool) (q : positive) (n t : nat) (e : Z) :
  Z.pos (digits2_pos q) + Z.of_nat t = 53 ->
  -1074 <= e + Z.of_nat n <= 971 ->
  binary_round_aux prec emax s (Z.pos (Nat.iter (n + t) xO q)) e loc_Exact
  = S754_finite s (Nat.iter t xO q) (e + Z.of_nat n).
Proof.
  intros Hd He. unfold binary_round_aux.
  assert (Hfirst :
    shr_fexp prec emax (Z.pos (Nat.iter (n + t) xO q)) e loc_Exact
    = ({| shr_m := Z.pos (Nat.iter t xO q); shr_r := false; shr_s := false |},
       e + Z.of_nat n)).
  { unfold shr_fexp. cbn [Zdigits2 shr_record_of_loc].
    rewrite digits_iter_xO, fexp_normal by lia.
    replace (Z.pos (digits2_pos q) + Z.of_nat (n + t) + e - 53 - e)
      with (Z.of_nat n) by lia.
    destruct n as [| n].
    { change (Z.of_nat 0) with 0. rewrite Z.add_0_r. reflexivity. }
    unfold shr. rewrite Nat2Z.inj_succ, <- Zpos_P_of_succ_nat.
    rewrite iter_pos_nat, SuccNat2Pos.id_succ, shr_exact. reflexivity. }
  rewrite Hfirst. cbn [shr_m loc_of_shr_record round_nearest_even].
  assert (Hsecond :
    shr_fexp prec emax (Z.pos (Nat.iter t xO q)) (e + Z.of_nat n) loc_Exact
    = ({| shr_m := Z.pos (Nat.iter t xO q); shr_r := false; shr_s := false |},
       e + Z.of_nat n)).
  { unfold shr_fexp. cbn [Zdigits2 shr_record_of_loc].
    rewrite digits_iter_xO, Hd.
    assert (Hf : fexp prec emax (53 + (e + Z.of_nat n)) = e + Z.of_nat n).
    { unfold fexp, SpecFloat.emin, prec, emax. lia. }
    rewrite Hf, Z.sub_diag. reflexivity. }
  rewrite Hsecond. cbn [shr_m].
  replace (e + Z.of_nat n <=? emax - prec) with true; [reflexivity |].
  symmetry. apply Z.leb_le. unfold emax, prec. lia.
Qed.

(** Rounding [q * 2^j * 2^e] with [q] of at most 53 bits is exact and
    gives the 53-bit mantissa of [q]. *)
Lemma binary_round_canonical (s : bool) (q : positive) (j : nat) (e : Z) :
  Z.pos (digits2_pos q) <= 53 ->
  -1074 <= e + Z.pos (digits2_pos q) + Z.of_nat j - 53 <= 971 ->
  binary_round prec emax s (Nat.iter j xO q) e
  = S754_finite s (Nat.iter (Z.to_nat (53 - Z.pos (digits2_pos q))) xO q)
      (e + Z.pos (digits2_pos q) + Z.of_nat j - 53).
Proof.
  intros Hd He. unfold binary_round.
  rewrite digits_iter_xO, fexp_normal by lia.
  set (dq := Z.pos (digits2_pos q)) in *.
  set (t := Z.to_nat (53 - dq)).
  destruct (Z_le_gt_dec (dq + Z.of_nat j) 53) as [Hsmall | Hbig].
  - rewrite shl_align_le by lia. cbv beta iota.
    rewrite <- Nat.iter_add.
    replace (Z.to_nat (e - (dq + Z.of_nat j + e - 53)) + j)%nat
      with (0 + t)%nat by lia.
    rewrite (binary_round_aux_exact s q 0 t) by (subst dq t; lia).
    f_equal. lia.
  - rewrite shl_align_gt by lia. cbv beta iota.
    assert (Hj : exists n, j = (n + t)%nat)
      by (exists (Z.to_nat (dq + Z.of_nat j - 53)); lia).
    destruct Hj as [n ->].
    rewrite (binary_round_aux_exact s q n t) by (subst dq t; lia).
    f_equal. lia.
Qed.

Lemma normalize_canon (k e0 : Z) (j : nat) :
  Z.abs k < 2 ^ 53 -> -1000 <= e0 <= 900 ->
  binary_normalize prec emax (k * 2 ^ Z.of_nat j) (e0 - Z.of_nat j) false
  = canon k e0.
Proof.
  intros Hk He. destruct k as [| q | q]; [reflexivity | |].
  - rewrite <- iter_xO_value. cbn [binary_normalize canon]. unfold canonical.
    pose proof (digits_bound q 53 ltac:(lia) ltac:(lia)).
    rewrite binary_round_canonical by lia. f_equal. lia.
  - change (Z.neg q) with (- Z.pos q). rewrite Z.mul_opp_l, <- iter_xO_value.
    change (- Z.pos (Nat.iter j xO q)) with (Z.neg (Nat.iter j xO q)).
    change (- Z.pos q) with (Z.neg q) in *.
    cbn [binary_normalize canon]. unfold canonical.
    pose proof (digits_bound q 53 ltac:(lia) ltac:(lia)).
    rewrite (binary_round_canonical true q j (e0 - Z.of_nat j)) by lia.
    f_equal. lia.
Qed.

Lemma of_int_canon (c : Z) : Z.abs c < 2 ^ 53 -> of_int c = Ok (canon c 0).
Proof.
  intros Hc. unfold of_int.
  pose proof (normalize_canon c 0 0 Hc ltac:(lia)) as Hn.
  change (Z.of_nat 0) with 0 in Hn. rewrite Z.pow_0_r, Z.mul_1_r in Hn.
  change (0 - 0) with 0 in Hn. rewrite Hn. by destruct c.
Qed.

Lemma truediv_2_canon (w : Z) :
  Z.abs w < 2 ^ 53 -> truediv_2 w = Ok (canon w (-1)).
Proof.
  intros Hw. unfold truediv_2.
  pose proof (normalize_canon w (-1) 0 Hw ltac:(lia)) as Hn.
  change (Z.of_nat 0) with 0 in Hn. rewrite Z.pow_0_r, Z.mul_1_r in Hn.
  change (-1 - 0) with (-1) in Hn. rewrite Hn. by destruct w.
Qed.

Lemma int_canonical (s : bool) (q : positive) :
  Z.pos q < 2 ^ 53 ->
  int (canonical s q (-1)) = Ok (Z.quot (cond_Zopp s (Z.pos q)) 2).
Proof.
  intros Hq. pose proof (digits_bound q 53 ltac:(lia) Hq) as Hd.
  unfold canonical. cbn [int].
  set (d := Z.pos (digits2_pos q)) in *.
  replace (0 <=? -1 + d - 53) with false by (symmetry; apply Z.leb_gt; lia).
  rewrite iter_xO_value, Z2Nat.id by lia.
  replace (- (-1 + d - 53)) with (1 + (53 - d)) by lia.
  rewrite Z.pow_add_r by lia.
  rewrite Z.quot_mul_cancel_r by lia.
  destruct s; cbn [cond_Zopp]; [| reflexivity].
  rewrite Z.quot_opp_l by lia. reflexivity.
Qed.

Lemma int_canon (k : Z) :
  Z.abs k < 2 ^ 53 -> int (canon k (-1)) = Ok (Z.quot k 2).
Proof.
  intros Hk. destruct k as [| q | q]; [reflexivity | |].
  - apply (int_canonical false q). lia.
  - apply (int_canonical true q). lia.
Qed.

(** Subtracting a half-integer from an integer is exact when the
    difference has at most 53 bits. *)
Lemma sub_canonical (sc sw : bool) (p q : positive) :
  Z.pos p < 2 ^ 52 -> Z.pos q < 2 ^ 53 ->
  Z.abs (2 * cond_Zopp sc (Z.pos p) - cond_Zopp sw (Z.pos q)) < 2 ^ 53 ->
  sub (canonical sc p 0) (canonical sw q (-1))
  = canon (2 * cond_Zopp sc (Z.pos p) - cond_Zopp sw (Z.pos q)) (-1).
Proof.
  intros Hp Hq Hk.
  pose proof (digits_bound p 52 ltac:(lia) Hp) as Hdp.
  pose proof (digits_bound q 53 ltac:(lia) Hq) as Hdq.
  unfold sub, canonical. cbn [SFsub].
  set (dp := Z.pos (digits2_pos p)) in *.
  set (dq := Z.pos (digits2_pos q)) in *.
  set (ez := Z.min (0 + dp - 53) (-1 + dq - 53)).
  rewrite !shl_align_le by lia. cbn [fst].
  rewrite <- !Nat.iter_add, !iter_xO_value.
  set (J := Z.to_nat (-1 - ez)).
  replace (Z.of_nat (Z.to_nat (0 + dp - 53 - ez) + Z.to_nat (53 - dp)))
    with (Z.succ (Z.of_nat J)) by lia.
  replace (Z.of_nat (Z.to_nat (-1 + dq - 53 - ez) + Z.to_nat (53 - dq)))
    with (Z.of_nat J) by lia.
  rewrite Z.pow_succ_r by lia.
  replace ez with (-1 - Z.of_nat J) by lia.
  rewrite <- (normalize_canon _ (-1) J Hk ltac:(lia)).
  f_equal. destruct sc, sw; cbn [cond_Zopp]; ring.
Qed.

Lemma canonical_double (s : bool) (p : positive) :
  Z.pos p < 2 ^ 52 -> canonical s p 0 = canonical s p~0 (-1).
Proof.
  intros Hp. pose proof (digits_bound p 52 ltac:(lia) Hp) as Hd.
  unfold canonical. cbn [digits2_pos]. rewrite Pos2Z.inj_succ.
  replace (Z.to_nat (53 - Z.pos (digits2_pos p)))
    with (S (Z.to_nat (53 - Z.succ (Z.pos (digits2_pos p))))) by lia.
  rewrite Nat.iter_succ_r. f_equal. lia.
Qed.

Lemma canon_double (c : Z) :
  Z.abs c < 2 ^ 52 -> canon c 0 = canon (2 * c) (-1).
Proof.
  intros Hc. destruct c as [| p | p]; [reflexivity | |].
  - change (2 * Z.pos p) with (Z.pos p~0). apply canonical_double. lia.
  - change (2 * Z.neg p) with (Z.neg p~0). apply canonical_double. lia.
Qed.

Lemma sub_canon (c w : Z) :
  Z.abs c < 2 ^ 52 -> Z.abs w < 2 ^ 53 -> Z.abs (2 * c - w) < 2 ^ 53 ->
  sub (canon c 0) (canon w (-1)) = canon (2 * c - w) (-1).
Proof.
  intros Hc Hw Hk.
  destruct w as [| q | q].
  - rewrite Z.sub_0_r. rewrite <- (canon_double c Hc). by destruct c.
  - destruct c as [| p | p]; [reflexivity | |].
    + apply (sub_canonical false false p q); [lia | lia | exact Hk].
    + apply (sub_canonical true false p q); [lia | lia | exact Hk].
  - destruct c as [| p | p]; [reflexivity | |].
    + apply (sub_canonical false true p q); [lia | lia | exact Hk].
    + apply (sub_canonical true true p q); [lia | lia | exact Hk].
Qed.

Lemma origin_coordinate_exact (c size : Z) :
  within_exact_range c size ->
  origin_coordinate c size = Ok (canon (2 * c - size) (-1))
  /\ int (canon (2 * c - size) (-1)) = Ok (Z.quot (2 * c - size) 2).
Proof.
  intros [Hc Hs].
  assert (H51 : 2 ^ 51 = 2251799813685248) by reflexivity.
  assert (H52 : 2 ^ 52 = 4503599627370496) by reflexivity.
  assert (H53 : 2 ^ 53 = 9007199254740992) by reflexivity.
  split.
  - unfold origin_coordinate.
    rewrite truediv_2_canon, of_int_canon by lia. cbn.
    f_equal. apply sub_canon; lia.
  - apply int_canon. lia.
Qed.

End Binary64Facts.

(** On integer arguments of magnitude at most 2^51 the binary64
    evaluation neither rounds nor overflows: it returns the origin of
    the exact arithmetic. *)
Lemma binary64_crop_origin (cx cy w h : Z) :
  within_exact_range cx w -> within_exact_range cy h ->
  Binary64._calculate_crop_origin (cx, cy) w h
  = Ok (_calculate_crop_origin (cx, cy) w h).
Proof.
  intros Hx Hy. unfold Binary64._calculate_crop_origin. cbn [fst snd].
  destruct (origin_coordinate_exact cx w Hx) as [-> Hix].
  destruct (origin_coordinate_exact cy h Hy) as [-> Hiy].
  cbn. rewrite Hix. cbn. rewrite Hiy. cbn.
  by rewrite crop_origin_unfold, !int_midpoint.
Qed.

(** ** The crop-origin contract on binary64 *)

Section CropOriginContract.

Lemma binary64_origin_pair (cx cy w h : Z) :
  within_exact_range cx w -> within_exact_range cy h ->
  Binary64._calculate_crop_origin (cx, cy) w h
  = Ok (Z.quot (2 * cx - w) 2, Z.quot (2 * cy - h) 2).
Proof.
  intros Hx Hy. rewrite (binary64_crop_origin cx cy w h Hx Hy).
  by rewrite crop_origin_unfold, !int_midpoint.
Qed.

(** C2, amended: on integer arguments of magnitude at most 2^51,
    [_calculate_crop_origin] returns the floor origin
    (floor(cx - w/2), floor(cy - h/2)) exactly when each midpoint is
    non-negative or integral (w <= 2cx or w even, h <= 2cy or h even);
    center (173,130) with width 100 and height 100 gives (123,80), and
    center (0,0) with width 3 and height 5 gives (-1,-2). *)
Theorem crop_origin_floor_exactly_when (cx cy w h : Z) :
  within_exact_range cx w -> within_exact_range cy h ->
  (Binary64._calculate_crop_origin (cx, cy) w h
   = Ok (floor_origin (cx, cy) w h)
   <-> (w <= 2 * cx \/ Z.even w = true) /\ (h <= 2 * cy \/ Z.even h = true))
  /\ Binary64._calculate_crop_origin (173, 130) 100 100 = Ok (123, 80)
  /\ Binary64._calculate_crop_origin (0, 0) 3 5 = Ok (-1, -2).
Proof.
  intros Hx Hy. split; [| split; vm_compute; reflexivity].
  rewrite (binary64_crop_origin cx cy w h Hx Hy).
  destruct (exact_origin_floor_iff cx cy w h) as [Hiff _].
  rewrite <- Hiff. split; congruence.
Qed.

(** C3, as stated, fails outside the range on which binary64 is exact:
    at center (2^53 + 1, 0) with width 2 the operand is rounded and the
    code returns 2^53 - 1 where truncation of the midpoint gives 2^53,
    and at center (10^400, 0) the conversion raises [OverflowError]. *)
Lemma crop_origin_truncation_counterexample :
  truncated_origin (2 ^ 53 + 1, 0) 2 2 = (2 ^ 53, -1)
  /\ Binary64._calculate_crop_origin (2 ^ 53 + 1, 0) 2 2 = Ok (2 ^ 53 - 1, -1)
  /\ Binary64._calculate_crop_origin (10 ^ 400, 0) 2 2 = Raise OverflowError
  /\ ~ (forall cx cy w h,
          Binary64._calculate_crop_origin (cx, cy) w h
          = Ok (truncated_origin (cx, cy) w h)).
Proof.
  split; [vm_compute; reflexivity |].
  split; [vm_compute; reflexivity |].
  split; [vm_compute; reflexivity |].
  intros Hall. specialize (Hall (10 ^ 400) 0 2 2).
  vm_compute in Hall. discriminate Hall.
Qed.

(** C3, amended: on integer arguments of magnitude at most 2^51,
    [_calculate_crop_origin] returns the midpoints cx - w/2 and
    cy - h/2 truncated toward zero: each coordinate lies between zero
    and its midpoint, less than one away from it; a midpoint of -1.5
    yields the coordinate -1. *)
Theorem crop_origin_truncates_toward_zero (cx cy w h : Z) :
  within_exact_range cx w -> within_exact_range cy h ->
  exists ox oy,
    Binary64._calculate_crop_origin (cx, cy) w h = Ok (ox, oy)
    /\ (ox, oy) = truncated_origin (cx, cy) w h
    /\ (Z.abs (2 * ox) <= Z.abs (2 * cx - w) < Z.abs (2 * ox) + 2
        /\ 0 <= ox * (2 * cx - w))
    /\ (Z.abs (2 * oy) <= Z.abs (2 * cy - h) < Z.abs (2 * oy) + 2
        /\ 0 <= oy * (2 * cy - h))
    /\ (midpoint 0 3 == - (3 # 2))%Q
    /\ Binary64._calculate_crop_origin (0, 0) 3 5 = Ok (-1, -2).
Proof.
  intros Hx Hy.
  exists (fst (_calculate_crop_origin (cx, cy) w h)),
    (snd (_calculate_crop_origin (cx, cy) w h)).
  rewrite <- surjective_pairing.
  split; [exact (binary64_crop_origin cx cy w h Hx Hy) |].
  destruct (exact_origin_truncates cx cy w h) as (Heq & Hbx & Hby & Hmid & _).
  split; [exact Heq |]. split; [exact Hbx |]. split; [exact Hby |].
  split; [exact Hmid | vm_compute; reflexivity].
Qed.

End CropOriginContract.

(** ** Event stores and the region filter *)

Section Stores.

Lemma size_add (a b : EventStore) : size (add a b) = size a + size b.
Proof. unfold size, add. rewrite length_app. lia. Qed.

Lemma size_concat (batches : list EventStore) :
  size (concat batches) = total_size batches.
Proof.
  induction batches as [| b batches IH]; [reflexivity |].
  cbn [concat total_size foldr]. fold (total_size batches).
  rewrite <- IH. apply size_add.
Qed.

Lemma size_pos_nonempty (a : EventStore) : (0 <? size a) = false -> a = [].
Proof.
  unfold size. destruct a; [done |]. cbn [length]. intros H.
  apply Z.ltb_ge in H. lia.
Qed.

(** A fresh filter handed one store generates that store's retained
    events and is fresh again. *)
Lemma generate_after_accept (r : Rect) (store : EventStore) :
  generateEvents (accept (EventRegionFilter_new r) store)
  = (filter (contains r) store, EventRegionFilter_new r).
Proof. reflexivity. Qed.

(** In a time-ordered store the first timestamp is at most the last. *)
Lemma sorted_head_le_last (ts : list Z) (first last_ : Z) :
  Sorted Z.le ts -> head ts = Some first -> last ts = Some last_ ->
  first <= last_.
Proof.
  intros Hs Hh Hl.
  apply (Sorted_StronglySorted Z.le) in Hs.
  destruct ts as [| t ts]; [discriminate |].
  injection Hh as ->.
  destruct ts as [| t' ts]; [injection Hl as ->; lia |].
  apply StronglySorted_inv in Hs as [_ Hall].
  rewrite last_cons_cons in Hl.
  rewrite Forall_forall in Hall. apply Hall.
  apply last_Some in Hl as [l' ->]. set_solver.
Qed.

End Stores.

(** ** The two traversal loops *)

Section Traversals.

Context {R : Type} {reader : MonoCameraRecording R}.

Lemma stops_after_reader_after (n : nat) (data : R) :
  stops_after n data ->
  isRunning (reader_after n data) = false
  /\ forall k, (k < n)%nat -> isRunning (reader_after k data) = true.
Proof.
  revert data. induction n as [| n IH]; intros data Hs; cbn in *.
  - split; [done | lia].
  - destruct Hs as [Hrun Hs]. apply IH in Hs as [Hstop Hbefore].
    split; [done |]. intros [| k] Hk; cbn; [done |].
    apply Hbefore. lia.
Qed.

(** A reader that is not running after [n] pulls stops for the first
    time after some [m <= n] pulls. *)
Lemma eventually_stops (n : nat) (data : R) :
  isRunning (reader_after n data) = false ->
  exists m, (m <= n)%nat /\ stops_after m data.
Proof.
  revert data. induction n as [| n IH]; intros data Hn.
  - exists O. split; [lia | exact Hn].
  - destruct (isRunning data) eqn:Hrun.
    + cbn in Hn. apply IH in Hn as (m & Hm & Hs).
      exists (S m). split; [lia |]. cbn. by rewrite Hrun.
    + exists O. split; [lia | exact Hrun].
Qed.

Lemma get_events_from_loop_stops (n : nat) :
  forall (data : R) (events : EventStore) (fuel : nat),
    stops_after n data -> (n < fuel)%nat ->
    get_events_from_loop fuel data events
    = Some (add events (concat (non_null (batches_pulled n data))),
            reader_after n data).
Proof.
  induction n as [| n IH]; intros data events fuel Hs Hfuel;
    (destruct fuel as [| fuel]; [lia |]); cbn in Hs |- *.
  - rewrite Hs. unfold add. by rewrite app_nil_r.
  - destruct Hs as [Hrun Hs]. rewrite Hrun.
    destruct (getNextEventBatch data) as [[store |] data'] eqn:Hnext;
      cbn in Hs |- *; rewrite (IH data' _ fuel Hs) by lia.
    + unfold add. by rewrite <- app_assoc.
    + reflexivity.
Qed.

Lemma crop_loop_stops (n : nat) :
  forall (data : R) (r : Rect) (cropped : EventStore) (fuel : nat),
    stops_after n data -> (n < fuel)%nat ->
    crop_area_all_event_streams_loop fuel data (EventRegionFilter_new r) cropped
    = Some (add cropped
              (filter (contains r) (concat (non_null (batches_pulled n data))))).
Proof.
  induction n as [| n IH]; intros data r cropped fuel Hs Hfuel;
    (destruct fuel as [| fuel]; [lia |]); cbn in Hs |- *.
  - rewrite Hs. unfold add. by rewrite app_nil_r.
  - destruct Hs as [Hrun Hs]. rewrite Hrun.
    destruct (getNextEventBatch data) as [[store |] data'] eqn:Hnext;
      cbn in Hs |- *.
    + rewrite filter_app.
      destruct (0 <? size (filter (contains r) store)) eqn:Hsize.
      * change {| roi := r; buffer := EventStore_new |}
          with (EventRegionFilter_new r).
        rewrite (IH data' r _ fuel Hs) by lia.
        unfold add. by rewrite <- app_assoc.
      * apply size_pos_nonempty in Hsize. rewrite Hsize.
        change {| roi := r; buffer := EventStore_new |}
          with (EventRegionFilter_new r).
        by rewrite (IH data' r _ fuel Hs) by lia.
    + by rewrite (IH data' r _ fuel Hs) by lia.
Qed.

(** Step for step, the streaming loop holds the retained events of what
    the aggregation loop holds; they run out of fuel together. *)
Lemma loops_agree (r : Rect) (fuel : nat) :
  forall (data : R) (events : EventStore),
    crop_area_all_event_streams_loop fuel data (EventRegionFilter_new r)
      (filter (contains r) events)
    = (fun p => filter (contains r) (fst p)) <$> get_events_from_loop fuel data events.
Proof.
  induction fuel as [| fuel IH]; intros data events; cbn; [reflexivity |].
  destruct (isRunning data); [| reflexivity].
  destruct (getNextEventBatch data) as [[store |] data']; cbn.
  - change {| roi := r; buffer := EventStore_new |}
      with (EventRegionFilter_new r).
    destruct (0 <? size (filter (contains r) store)) eqn:Hsize.
    + rewrite <- IH. unfold add. by rewrite filter_app.
    + apply size_pos_nonempty in Hsize.
      rewrite <- IH. unfold add. by rewrite filter_app, Hsize, app_nil_r.
  - apply IH.
Qed.

End Traversals.

(** ** The aggregator, the two crop variants and the loader *)

Section Contracts.

Context {R : Type} {reader : MonoCameraRecording R}.

Lemma load_data_from_reader (aedat4_file : string) (out : logging.Output) :
  fst (load_data_from aedat4_file out) = open aedat4_file.
Proof. unfold load_data_from. by destruct (negb _). Qed.

Lemma crop_area_unfold fuel aedat4_file center crop_width crop_height out :
  crop_area fuel aedat4_file center crop_width crop_height out
  = ((fun p => filter (contains (crop_rect center crop_width crop_height)) (fst p))
       <$> get_events_from fuel (open aedat4_file),
     snd (load_data_from aedat4_file out)).
Proof.
  unfold crop_area.
  pose proof (load_data_from_reader aedat4_file out) as Hfst.
  destruct (load_data_from aedat4_file out) as [data out']. cbn in Hfst. subst data.
  destruct (get_events_from fuel (open aedat4_file)) as [[events data'] |];
    reflexivity.
Qed.

Lemma crop_area_all_event_streams_unfold
    fuel aedat4_file center crop_width crop_height out :
  crop_area_all_event_streams fuel aedat4_file center crop_width crop_height out
  = (crop_area_all_event_streams_loop fuel (open aedat4_file)
       (EventRegionFilter_new (crop_rect center crop_width crop_height))
       EventStore_new,
     snd (load_data_from aedat4_file out)).
Proof.
  unfold crop_area_all_event_streams.
  pose proof (load_data_from_reader aedat4_file out) as Hfst.
  destruct (load_data_from aedat4_file out) as [data out']. cbn in Hfst. subst data.
  reflexivity.
Qed.

(** C1: for every recording and crop rectangle, and at every bound on
    the number of pulls, the streaming variant
    [crop_area_all_event_streams] and the post-hoc variant [crop_area]
    have the same outcome: the same logged output, and the same event
    collection, hence the same size and the same ordered timestamp
    sequence. *)
Theorem crop_variants_agree (fuel : nat) (aedat4_file : string)
    (center : Z * Z) (crop_width crop_height : Z) (out : logging.Output) :
  let post_hoc := crop_area fuel aedat4_file center crop_width crop_height out in
  let streaming :=
    crop_area_all_event_streams fuel aedat4_file center crop_width crop_height out in
  streaming = post_hoc
  /\ size <$> fst streaming = size <$> fst post_hoc
  /\ timestamps <$> fst streaming = timestamps <$> fst post_hoc.
Proof.
  intros post_hoc streaming.
  assert (Heq : streaming = post_hoc).
  { subst post_hoc streaming.
    rewrite crop_area_unfold, crop_area_all_event_streams_unfold.
    f_equal. unfold get_events_from.
    rewrite <- loops_agree. reflexivity. }
  by rewrite Heq.
Qed.

(** C6: when the reader stops after [n] pulls, [get_events_from] pulls
    exactly those [n] batches, leaves the reader not running, and
    returns the non-null batches appended in arrival order; the size of
    the result is the sum of their sizes, and when the timestamps are
    non-decreasing the first timestamp is at most the last. *)
Theorem get_events_from_aggregates (n fuel : nat) (data : R) :
  stops_after n data -> (n < fuel)%nat ->
  exists events,
    get_events_from fuel data = Some (events, reader_after n data)
    /\ isRunning (reader_after n data) = false
    /\ events = concat (non_null (batches_pulled n data))
    /\ size events = total_size (non_null (batches_pulled n data))
    /\ forall first last_,
         Sorted Z.le (timestamps events) ->
         head (timestamps events) = Some first ->
         last (timestamps events) = Some last_ ->
         first <= last_.
Proof.
  intros Hs Hfuel.
  exists (concat (non_null (batches_pulled n data))).
  split; [exact (get_events_from_loop_stops n data EventStore_new fuel Hs Hfuel) |].
  split; [by apply stops_after_reader_after |].
  split; [reflexivity |].
  split; [apply size_concat |].
  intros first last_. apply sorted_head_le_last.
Qed.

(** C7: [crop_area] returns exactly when aggregating the same recording
    returns, and then its events are a subsequence of the aggregated
    stream: no more of them, none added, none duplicated.  This holds
    for every rectangle, in particular those smaller than the source
    resolution. *)
Theorem crop_area_only_removes (fuel : nat) (aedat4_file : string)
    (center : Z * Z) (crop_width crop_height : Z) (out : logging.Output) :
  match fst (crop_area fuel aedat4_file center crop_width crop_height out),
        get_events_from fuel (fst (load_data_from aedat4_file out)) with
  | Some cropped, Some (source, _) =>
      size cropped <= size source /\ cropped `sublist_of` source
  | None, None => True
  | _, _ => False
  end.
Proof.
  rewrite crop_area_unfold, load_data_from_reader. cbn [fst].
  destruct (get_events_from fuel (open aedat4_file)) as [[source data'] |];
    cbn; [| done].
  split; [| apply sublist_filter].
  unfold size. pose proof (length_filter (contains (crop_rect center crop_width crop_height)) source).
  lia.
Qed.

(** C9: when the opened reader reports no event stream,
    [load_data_from] writes exactly one record, at critical level, and
    returns the opened reader; aggregation over the returned reader
    proceeds as over the opened one. *)
Theorem load_data_from_missing_stream (aedat4_file : string)
    (out : logging.Output) (fuel : nat) :
  isEventStreamAvailable (open aedat4_file) = false ->
  load_data_from aedat4_file out
  = (open aedat4_file,
     out ++ [ {| logging.levelname := logging.CRITICAL;
                 logging.message := no_event_stream_message |} ])
  /\ get_events_from fuel (fst (load_data_from aedat4_file out))
     = get_events_from fuel (open aedat4_file).
Proof.
  intros Hna. split; [| by rewrite load_data_from_reader].
  unfold load_data_from. rewrite Hna. reflexivity.
Qed.

(** C10: for a reader that reports not running after finitely many
    pulls, both loops return once given enough iterations: the
    aggregation loop returns the whole aggregate of the batches pulled
    until the reader first stopped, and the streaming crop returns the
    retained events of those batches. *)
Theorem traversal_loops_terminate (n : nat) (aedat4_file : string)
    (center : Z * Z) (crop_width crop_height : Z) (out : logging.Output) :
  isRunning (reader_after n (open aedat4_file)) = false ->
  exists m, (m <= n)%nat
    /\ stops_after m (open aedat4_file)
    /\ forall fuel, (m < fuel)%nat ->
         get_events_from fuel (fst (load_data_from aedat4_file out))
         = Some (concat (non_null (batches_pulled m (open aedat4_file))),
                 reader_after m (open aedat4_file))
         /\ fst (crop_area_all_event_streams fuel aedat4_file center
                   crop_width crop_height out)
            = Some (filter (contains (crop_rect center crop_width crop_height))
                      (concat (non_null (batches_pulled m (open aedat4_file))))).
Proof.
  intros Hn. apply eventually_stops in Hn as (m & Hm & Hs).
  exists m. split; [done |]. split; [done |].
  intros fuel Hfuel. split.
  - rewrite load_data_from_reader.
    exact (get_events_from_loop_stops m _ EventStore_new fuel Hs Hfuel).
  - rewrite crop_area_all_event_streams_unfold. cbn [fst].
    exact (crop_loop_stops m _ _ EventStore_new fuel Hs Hfuel).
Qed.

End Contracts.

(** ** The statistics report *)

Section Statistics.

Lemma getitem_nil (i : Z) : numpy.getitem [] i = Raise IndexError.
Proof.
  unfold numpy.getitem. cbv zeta.
  change (Z.of_nat (length (@nil Z))) with 0.
  destruct ((0 <=? (if i <? 0 then i + 0 else i))
            && ((if i <? 0 then i + 0 else i) <? 0)) eqn:Hrange;
    [| reflexivity].
  apply andb_true_iff in Hrange as [Hlo Hhi].
  apply Z.leb_le in Hlo. apply Z.ltb_lt in Hhi. lia.
Qed.

Lemma getitem_first (ts : list Z) (t : Z) :
  head ts = Some t -> numpy.getitem ts 0 = Ok t.
Proof.
  destruct ts as [| t' ts]; [discriminate |]. intros [= ->].
  unfold numpy.getitem. cbn [length].
  change (0 <? 0) with false. cbn iota.
  replace (0 <? Z.of_nat (S (length ts))) with true; [done |].
  symmetry. apply Z.ltb_lt. lia.
Qed.

Lemma getitem_last (ts : list Z) (t : Z) :
  last ts = Some t -> numpy.getitem ts (-1) = Ok t.
Proof.
  intros Hl. pose proof Hl as Hlook. rewrite last_lookup in Hlook.
  assert (Hlen : (0 < length ts)%nat).
  { destruct ts; [discriminate | cbn; lia]. }
  unfold numpy.getitem. change (-1 <? 0) with true. cbn iota.
  replace (0 <=? -1 + Z.of_nat (length ts)) with true
    by (symmetry; apply Z.leb_le; lia).
  replace (-1 + Z.of_nat (length ts) <? Z.of_nat (length ts)) with true
    by (symmetry; apply Z.ltb_lt; lia).
  replace (Z.to_nat (-1 + Z.of_nat (length ts))) with (pred (length ts)) by lia.
  by rewrite Hlook.
Qed.

Lemma duration_span (events : EventStore) (first last_ : Z) :
  head (timestamps events) = Some first ->
  last (timestamps events) = Some last_ ->
  duration events = last_ - first.
Proof.
  unfold timestamps, duration. rewrite fmap_last.
  destruct events as [| e0 rest]; [discriminate |]. cbn [fmap list_fmap head].
  destruct (last (e0 :: rest)); cbn; congruence.
Qed.

(** The report is built by inserting the four entries in turn. *)
Lemma report_as_inserts (d first last_ count : Z) :
  <["events count" := Int count]>
    (<["last timestamp" := Int last_]>
      (<["first timestamp" := Int first]>
        (<["duration" := Timedelta d]> (∅ : gmap string Value))))
  = StatsReport d first last_ count.
Proof.
  apply map_eq. intros k. unfold StatsReport.
  destruct (decide (k = "events count")) as [-> | ?]; [by simplify_map_eq |].
  destruct (decide (k = "last timestamp")) as [-> | ?]; [by simplify_map_eq |].
  destruct (decide (k = "first timestamp")) as [-> | ?]; [by simplify_map_eq |].
  destruct (decide (k = "duration")) as [-> | ?]; [by simplify_map_eq |].
  by simplify_map_eq.
Qed.

Lemma StatsReport_keys (d first last_ count : Z) :
  dom (StatsReport d first last_ count)
  =@{gset string}
  {[ "duration"; "first timestamp"; "last timestamp"; "events count" ]}.
Proof. unfold StatsReport. rewrite !dom_insert_L, dom_singleton_L. set_solver. Qed.

Lemma events_info_nonempty (events : EventStore) (first last_ : Z) :
  head (timestamps events) = Some first ->
  last (timestamps events) = Some last_ ->
  events_info events
  = Ok (StatsReport (last_ - first) first last_ (size events)).
Proof.
  intros Hh Hl. unfold events_info.
  rewrite (getitem_first _ _ Hh), (getitem_last _ _ Hl).
  rewrite (duration_span _ _ _ Hh Hl). cbn.
  by rewrite report_as_inserts.
Qed.

Lemma first_last_exist (e0 : Event) (rest : EventStore) :
  exists first last_,
    head (timestamps (e0 :: rest)) = Some first
    /\ last (timestamps (e0 :: rest)) = Some last_.
Proof.
  exists (timestamp e0). unfold timestamps. rewrite fmap_last.
  destruct (last (e0 :: rest)) as [e1 |] eqn:Hl.
  - by exists (timestamp e1).
  - by apply last_None in Hl.
Qed.

(** C4: for every non-empty collection, [events_info] returns the
    report with exactly the four keys, holding the collection's first
    and last timestamps, their span as the duration, and the
    collection's size; for three events with timestamps 100, 150 and
    300 the report is duration 200, first 100, last 300, count 3. *)
Theorem events_info_report (e0 : Event) (rest : EventStore) :
  let events := e0 :: rest in
  (exists first last_,
      head (timestamps events) = Some first
      /\ last (timestamps events) = Some last_
      /\ events_info events
         = Ok (StatsReport (last_ - first) first last_ (size events))
      /\ dom (StatsReport (last_ - first) first last_ (size events))
         =@{gset string}
         {[ "duration"; "first timestamp"; "last timestamp"; "events count" ]})
  /\ forall x1 y1 x2 y2 x3 y3,
       events_info [ev 100 x1 y1; ev 150 x2 y2; ev 300 x3 y3]
       = Ok (StatsReport 200 100 300 3).
Proof.
  intros events. split.
  - destruct (first_last_exist e0 rest) as (first & last_ & Hh & Hl).
    exists first, last_. split; [done |]. split; [done |].
    split; [by apply events_info_nonempty | apply StatsReport_keys].
  - intros. by rewrite (events_info_nonempty _ 100 300).
Qed.

(** C5: [events_info] returns a report exactly on the non-empty
    collections, where both timestamp accesses are in range; on the
    empty collection nothing is checked beforehand and the first
    timestamp access raises [IndexError]. *)
Theorem events_info_precondition (events : EventStore) :
  ((exists report, events_info events = Ok report) <-> events <> [])
  /\ ((exists first last_,
          numpy.getitem (timestamps events) 0 = Ok first
          /\ numpy.getitem (timestamps events) (-1) = Ok last_)
      <-> events <> [])
  /\ (events_info events = Raise IndexError <-> events = [])
  /\ numpy.getitem (timestamps []) 0 = Raise IndexError.
Proof.
  destruct events as [| e0 rest].
  - assert (Hraise : events_info [] = Raise IndexError) by reflexivity.
    split; [split; [intros [report Hr]; congruence | done] |].
    split; [split; [intros (first & last_ & Hf & _); discriminate Hf | done] |].
    split; [done | reflexivity].
  - destruct (first_last_exist e0 rest) as (first & last_ & Hh & Hl).
    pose proof (events_info_nonempty _ _ _ Hh Hl) as Hok.
    split; [split; [done | intros _; eauto] |].
    split.
    { split; [done | intros _].
      exists first, last_.
      by rewrite (getitem_first _ _ Hh), (getitem_last _ _ Hl). }
    split; [split; [congruence | done] | reflexivity].
Qed.

End Statistics.

(** ** Concrete runs *)

Section Runs.

#[local] Existing Instance sample.

(** On the sample recording both crop variants return the three events
    inside the default rectangle, out of six aggregated; the third
    batch loses every event to the filter and is skipped. *)
Example sample_crop :
  crop_area (reader := sample) 5 "events.aedat4" (173, 130) 100 100 []
  = (Some [ev 100 130 90; ev 150 200 100; ev 300 173 130], [])
  /\ crop_area_all_event_streams (reader := sample) 5 "events.aedat4"
       (173, 130) 100 100 []
     = (Some [ev 100 130 90; ev 150 200 100; ev 300 173 130], [])
  /\ (fst <$> get_events_from (reader := sample) 5 (sample_disk "events.aedat4"))
     = Some (concat (non_null sample_script)).
Proof. split; [| split]; vm_compute; reflexivity. Qed.

(** With too few iterations allowed, neither variant has returned. *)
Example sample_crop_short :
  fst (crop_area (reader := sample) 4 "events.aedat4" (173, 130) 100 100 []) = None
  /\ fst (crop_area_all_event_streams (reader := sample) 4 "events.aedat4"
            (173, 130) 100 100 []) = None.
Proof. split; vm_compute; reflexivity. Qed.

(** A reader that never stops keeps both loops running: no bound on
    the iterations is enough. *)
Lemma endless_never_returns (b : EventStore) (r : Rect) (fuel : nat) :
  forall events cropped,
    get_events_from_loop (reader := endless_recording b) fuel tt events = None
    /\ crop_area_all_event_streams_loop (reader := endless_recording b) fuel tt
         (EventRegionFilter_new r) cropped = None.
Proof.
  induction fuel as [| fuel IH]; intros events cropped; [done |].
  cbn. split; [apply (IH _ cropped) |].
  change {| roi := r; buffer := EventStore_new |} with (EventRegionFilter_new r).
  destruct (0 <? size (filter (contains r) b)); apply (IH events).
Qed.

Lemma get_events_from_aggregates_witness :
  exists events,
    get_events_from (reader := sample) 5 (sample_disk "events.aedat4")
    = Some (events, reader_after (reader := sample) 4 (sample_disk "events.aedat4"))
    /\ isRunning (reader_after (reader := sample) 4 (sample_disk "events.aedat4")) = false
    /\ events
       = concat (non_null (batches_pulled (reader := sample) 4
                             (sample_disk "events.aedat4")))
    /\ size events
       = total_size (non_null (batches_pulled (reader := sample) 4
                                 (sample_disk "events.aedat4")))
    /\ forall first last_,
         Sorted Z.le (timestamps events) ->
         head (timestamps events) = Some first ->
         last (timestamps events) = Some last_ ->
         first <= last_.
Proof.
  apply (get_events_from_aggregates (reader := sample) 4 5
           (sample_disk "events.aedat4")).
  - vm_compute. repeat split.
  - lia.
Defined.

Lemma load_data_from_missing_stream_witness :
  load_data_from (reader := sample) "missing.aedat4" []
  = (sample_disk "missing.aedat4",
     [ {| logging.levelname := logging.CRITICAL;
          logging.message := no_event_stream_message |} ])
  /\ get_events_from 1 (fst (load_data_from (reader := sample) "missing.aedat4" []))
     = get_events_from (reader := sample) 1 (sample_disk "missing.aedat4").
Proof.
  apply (load_data_from_missing_stream (reader := sample) "missing.aedat4" [] 1).
  reflexivity.
Defined.

Lemma traversal_loops_terminate_witness :
  exists m, (m <= 7)%nat
    /\ stops_after (reader := sample) m (sample_disk "events.aedat4")
    /\ forall fuel, (m < fuel)%nat ->
         get_events_from fuel
           (fst (load_data_from (reader := sample) "events.aedat4" []))
         = Some (concat (non_null (batches_pulled (reader := sample) m
                                     (sample_disk "events.aedat4"))),
                 reader_after (reader := sample) m (sample_disk "events.aedat4"))
         /\ fst (crop_area_all_event_streams (reader := sample) fuel
                   "events.aedat4" (173, 130) 100 100 [])
            = Some (filter (contains (crop_rect (173, 130) 100 100))
                      (concat (non_null (batches_pulled (reader := sample) m
                                           (sample_disk "events.aedat4"))))).
Proof.
  apply (traversal_loops_terminate (reader := sample) 7 "events.aedat4"
           (173, 130) 100 100 []).
  reflexivity.
Defined.

End Runs.

(** ** Geometry of the crop rectangle *)

Section CropGeometry.

Lemma origin_fst (cx cy w h : Z) :
  fst (_calculate_crop_origin (cx, cy) w h) = Z.quot (2 * cx - w) 2.
Proof. rewrite crop_origin_unfold. apply int_midpoint. Qed.

Lemma origin_snd (cx cy w h : Z) :
  snd (_calculate_crop_origin (cx, cy) w h) = Z.quot (2 * cy - h) 2.
Proof. rewrite crop_origin_unfold. apply int_midpoint. Qed.

(** Membership in the crop rectangle, in integer arithmetic. *)
Lemma contains_crop_rect (cx cy w h : Z) (e : Event) :
  contains (crop_rect (cx, cy) w h) e
  <-> Z.quot (2 * cx - w) 2 <= x e < Z.quot (2 * cx - w) 2 + w
      /\ Z.quot (2 * cy - h) 2 <= y e < Z.quot (2 * cy - h) 2 + h.
Proof. unfold crop_rect, contains. by rewrite origin_fst, origin_snd. Qed.

(** Whether one side of the rectangle covers its center coordinate. *)
Lemma side_covers_center (c size : Z) :
  1 <= size ->
  (Z.quot (2 * c - size) 2 <= c < Z.quot (2 * c - size) 2 + size
   <-> 2 <= size \/ c <= 0).
Proof.
  intros Hsize. rewrite quot_2_trunc.
  destruct (Z.leb_spec 0 (2 * c - size)) as [Hn | Hn].
  - pose proof (Z.div_mod (2 * c - size) 2 ltac:(lia)).
    pose proof (Z.mod_pos_bound (2 * c - size) 2 ltac:(lia)). lia.
  - pose proof (Z.div_mod (- (2 * c - size)) 2 ltac:(lia)).
    pose proof (Z.mod_pos_bound (- (2 * c - size)) 2 ltac:(lia)). lia.
Qed.

(** In exact arithmetic: the rectangle of a crop at least two pixels wide and high contains
    its center pixel; a one-pixel side contains the center coordinate
    only when that coordinate is not positive, because [int()] then
    rounds the midpoint up instead of down. *)
Lemma exact_rect_contains_center (cx cy w h t : Z) :
  1 <= w -> 1 <= h ->
  (contains (crop_rect (cx, cy) w h) (ev t cx cy)
   <-> (2 <= w \/ cx <= 0) /\ (2 <= h \/ cy <= 0)).
Proof.
  intros Hw Hh. rewrite contains_crop_rect. cbn [x y ev].
  by rewrite (side_covers_center cx w Hw), (side_covers_center cy h Hh).
Qed.

(** In exact arithmetic: the origin is not clamped to the sensor: a coordinate of the origin
    is negative exactly when the size exceeds twice the center
    coordinate by two or more. *)
Lemma exact_origin_negative_iff (cx cy w h : Z) :
  (fst (_calculate_crop_origin (cx, cy) w h) < 0 <-> 2 * cx + 2 <= w)
  /\ (snd (_calculate_crop_origin (cx, cy) w h) < 0 <-> 2 * cy + 2 <= h).
Proof.
  rewrite origin_fst, origin_snd, !quot_2_trunc.
  split.
  - destruct (Z.leb_spec 0 (2 * cx - w)) as [Hn | Hn].
    + pose proof (Z.div_pos (2 * cx - w) 2 Hn ltac:(lia)). lia.
    + pose proof (Z.div_mod (- (2 * cx - w)) 2 ltac:(lia)).
      pose proof (Z.mod_pos_bound (- (2 * cx - w)) 2 ltac:(lia)). lia.
  - destruct (Z.leb_spec 0 (2 * cy - h)) as [Hn | Hn].
    + pose proof (Z.div_pos (2 * cy - h) 2 Hn ltac:(lia)). lia.
    + pose proof (Z.div_mod (- (2 * cy - h)) 2 ltac:(lia)).
      pose proof (Z.mod_pos_bound (- (2 * cy - h)) 2 ltac:(lia)). lia.
Qed.

(** In exact arithmetic: a crop whose center is at least half its size away from every border
    of a [width] by [height] sensor lies inside the sensor. *)
Lemma exact_rect_inside_sensor (cx cy w h width height : Z) (e : Event) :
  w <= 2 * cx -> 2 * cx + w <= 2 * width ->
  h <= 2 * cy -> 2 * cy + h <= 2 * height ->
  contains (crop_rect (cx, cy) w h) e ->
  0 <= x e < width /\ 0 <= y e < height.
Proof.
  intros Hwl Hwr Hhl Hhr. rewrite contains_crop_rect, !quot_2_trunc.
  destruct (Z.leb_spec 0 (2 * cx - w)); [| lia].
  destruct (Z.leb_spec 0 (2 * cy - h)); [| lia].
  pose proof (Z.div_mod (2 * cx - w) 2 ltac:(lia)).
  pose proof (Z.mod_pos_bound (2 * cx - w) 2 ltac:(lia)).
  pose proof (Z.div_mod (2 * cy - h) 2 ltac:(lia)).
  pose proof (Z.mod_pos_bound (2 * cy - h) 2 ltac:(lia)).
  lia.
Qed.

(** In exact arithmetic: moving the center one pixel to the right moves the origin one pixel
    to the right, except across the midpoint -1/2, where both centers
    share the origin 0: the crop is not translation invariant there. *)
Lemma exact_origin_shift (cx cy w h : Z) :
  (fst (_calculate_crop_origin (cx + 1, cy) w h)
   = fst (_calculate_crop_origin (cx, cy) w h) + 1
   <-> 2 * cx - w <> -1)
  /\ (2 * cx - w = -1 ->
      fst (_calculate_crop_origin (cx + 1, cy) w h) = 0
      /\ fst (_calculate_crop_origin (cx, cy) w h) = 0).
Proof.
  rewrite !origin_fst, !quot_2_trunc.
  pose proof (Z.div_mod (2 * cx - w) 2 ltac:(lia)).
  pose proof (Z.mod_pos_bound (2 * cx - w) 2 ltac:(lia)).
  pose proof (Z.div_mod (- (2 * cx - w)) 2 ltac:(lia)).
  pose proof (Z.mod_pos_bound (- (2 * cx - w)) 2 ltac:(lia)).
  pose proof (Z.div_mod (2 * (cx + 1) - w) 2 ltac:(lia)).
  pose proof (Z.mod_pos_bound (2 * (cx + 1) - w) 2 ltac:(lia)).
  pose proof (Z.div_mod (- (2 * (cx + 1) - w)) 2 ltac:(lia)).
  pose proof (Z.mod_pos_bound (- (2 * (cx + 1) - w)) 2 ltac:(lia)).
  destruct (Z.leb_spec 0 (2 * cx - w)), (Z.leb_spec 0 (2 * (cx + 1) - w)); lia.
Qed.

End CropGeometry.

(** ** Geometry of the rectangle the code computes *)

Section CropGeometryContract.

(** X1: On integer arguments of magnitude at most 2^51, the rectangle of a
    crop at least two pixels wide and high contains its center pixel; a
    one-pixel side contains the center coordinate only when that
    coordinate is not positive, because [int()] then rounds the midpoint
    up instead of down. *)
Theorem crop_rect_contains_center (cx cy w h t : Z) :
  within_exact_range cx w -> within_exact_range cy h ->
  1 <= w -> 1 <= h ->
  exists ox oy,
    Binary64._calculate_crop_origin (cx, cy) w h = Ok (ox, oy)
    /\ (contains (ox, oy, w, h) (ev t cx cy)
        <-> (2 <= w \/ cx <= 0) /\ (2 <= h \/ cy <= 0)).
Proof.
  intros Hx Hy Hw Hh.
  exists (fst (_calculate_crop_origin (cx, cy) w h)),
    (snd (_calculate_crop_origin (cx, cy) w h)).
  rewrite <- surjective_pairing.
  split; [exact (binary64_crop_origin cx cy w h Hx Hy) |].
  exact (exact_rect_contains_center cx cy w h t Hw Hh).
Qed.

(** X2: On integer arguments of magnitude at most 2^51 the origin is not
    clamped to the sensor: a coordinate of the origin is negative
    exactly when the size exceeds twice the center coordinate by two or
    more. *)
Theorem crop_origin_negative_iff (cx cy w h : Z) :
  within_exact_range cx w -> within_exact_range cy h ->
  exists ox oy,
    Binary64._calculate_crop_origin (cx, cy) w h = Ok (ox, oy)
    /\ (ox < 0 <-> 2 * cx + 2 <= w)
    /\ (oy < 0 <-> 2 * cy + 2 <= h).
Proof.
  intros Hx Hy.
  exists (fst (_calculate_crop_origin (cx, cy) w h)),
    (snd (_calculate_crop_origin (cx, cy) w h)).
  rewrite <- surjective_pairing.
  split; [exact (binary64_crop_origin cx cy w h Hx Hy) |].
  exact (exact_origin_negative_iff cx cy w h).
Qed.

(** X3: On integer arguments of magnitude at most 2^51, a crop whose center
    is at least half its size away from every border of a [width] by
    [height] sensor lies inside the sensor. *)
Theorem crop_rect_inside_sensor (cx cy w h width height : Z) :
  within_exact_range cx w -> within_exact_range cy h ->
  w <= 2 * cx -> 2 * cx + w <= 2 * width ->
  h <= 2 * cy -> 2 * cy + h <= 2 * height ->
  exists ox oy,
    Binary64._calculate_crop_origin (cx, cy) w h = Ok (ox, oy)
    /\ forall e, contains (ox, oy, w, h) e ->
         0 <= x e < width /\ 0 <= y e < height.
Proof.
  intros Hx Hy Hwl Hwr Hhl Hhr.
  exists (fst (_calculate_crop_origin (cx, cy) w h)),
    (snd (_calculate_crop_origin (cx, cy) w h)).
  rewrite <- surjective_pairing.
  split; [exact (binary64_crop_origin cx cy w h Hx Hy) |].
  intros e. exact (exact_rect_inside_sensor cx cy w h width height e Hwl Hwr Hhl Hhr).
Qed.

(** X4: On integer arguments of magnitude at most 2^51, moving the center
    one pixel to the right moves the origin one pixel to the right,
    except across the midpoint -1/2, where both centers share the origin
    0: the crop is not translation invariant there. *)
Theorem crop_origin_shift (cx cy w h : Z) :
  within_exact_range cx w -> within_exact_range (cx + 1) w ->
  within_exact_range cy h ->
  exists ox ox' oy,
    Binary64._calculate_crop_origin (cx, cy) w h = Ok (ox, oy)
    /\ Binary64._calculate_crop_origin (cx + 1, cy) w h = Ok (ox', oy)
    /\ (ox' = ox + 1 <-> 2 * cx - w <> -1)
    /\ (2 * cx - w = -1 -> ox' = 0 /\ ox = 0).
Proof.
  intros Hx Hx' Hy.
  exists (fst (_calculate_crop_origin (cx, cy) w h)),
    (fst (_calculate_crop_origin (cx + 1, cy) w h)),
    (snd (_calculate_crop_origin (cx, cy) w h)).
  rewrite <- surjective_pairing.
  split; [exact (binary64_crop_origin cx cy w h Hx Hy) |].
  split; [| exact (exact_origin_shift cx cy w h)].
  rewrite (binary64_crop_origin (cx + 1) cy w h Hx' Hy).
  by rewrite !crop_origin_unfold.
Qed.

End CropGeometryContract.

(** ** When the traversals return, and what they leave behind *)

Section TraversalFacts.

Context {R : Type} {reader : MonoCameraRecording R}.

(** A loop that has returned has seen the reader stop, after fewer pulls
    than the bound on its iterations. *)
Lemma loop_returns_stopped (fuel : nat) :
  forall (data data' : R) (events events' : EventStore),
    get_events_from_loop fuel data events = Some (events', data') ->
    exists n, (n < fuel)%nat /\ stops_after n data /\ data' = reader_after n data.
Proof.
  induction fuel as [| fuel IH]; intros data data' events events' Hret;
    [discriminate |].
  cbn in Hret. destruct (isRunning data) eqn:Hrun.
  - destruct (getNextEventBatch data) as [[store |] data1] eqn:Hnext;
      apply IH in Hret as (n & Hn & Hs & ->);
      (exists (S n); cbn; rewrite Hnext, Hrun; cbn; split; [lia | done]).
  - injection Hret as <- <-. exists O. split; [lia | done].
Qed.

Lemma stops_after_not_running (n : nat) (data : R) :
  stops_after n data -> isRunning (reader_after n data) = false.
Proof. intros Hs. by apply stops_after_reader_after in Hs as [? _]. Qed.

(** From the empty store the streaming loop returns the retained events
    of what the aggregation returns. *)
Lemma streaming_as_aggregate (r : Rect) (fuel : nat) (data : R) :
  crop_area_all_event_streams_loop fuel data (EventRegionFilter_new r)
    EventStore_new
  = (fun p => filter (contains r) (fst p)) <$> get_events_from fuel data.
Proof. exact (loops_agree r fuel data EventStore_new). Qed.


(** X6: A reader drained by [get_events_from] is used up: aggregating from
    it again returns at once, with an empty collection and the reader
    unchanged. *)
Theorem get_events_from_drained_reader (fuel fuel' : nat) (data data' : R)
    (events : EventStore) :
  get_events_from fuel data = Some (events, data') ->
  (0 < fuel')%nat ->
  get_events_from fuel' data' = Some (EventStore_new, data').
Proof.
  intros Hret Hfuel. apply loop_returns_stopped in Hret as (n & _ & Hs & ->).
  apply stops_after_not_running in Hs.
  destruct fuel' as [| fuel']; [lia |].
  unfold get_events_from. cbn. by rewrite Hs.
Qed.

End TraversalFacts.

(** ** What the crop keeps *)

Section CropFacts.

Context {R : Type} {reader : MonoCameraRecording R}.

(** Once the aggregation of a recording returns, both crop variants
    return the retained events of the aggregate. *)
Lemma crop_results (fuel : nat) (aedat4_file : string) (center : Z * Z)
    (crop_width crop_height : Z) (out : logging.Output)
    (source : EventStore) (data' : R) :
  get_events_from fuel (fst (load_data_from aedat4_file out))
  = Some (source, data') ->
  fst (crop_area fuel aedat4_file center crop_width crop_height out)
  = Some (filter (contains (crop_rect center crop_width crop_height)) source)
  /\ fst (crop_area_all_event_streams fuel aedat4_file center
            crop_width crop_height out)
     = Some (filter (contains (crop_rect center crop_width crop_height)) source).
Proof.
  rewrite load_data_from_reader. intros Hagg.
  rewrite crop_area_unfold, crop_area_all_event_streams_unfold,
    streaming_as_aggregate. cbn [fst]. by rewrite Hagg.
Qed.

Lemma filter_keeps_time_order (P : Event -> Prop) `{!forall e, Decision (P e)}
    (events : EventStore) :
  Sorted Z.le (timestamps events) -> Sorted Z.le (timestamps (filter P events)).
Proof.
  intros Hs. apply (Sorted_StronglySorted Z.le) in Hs.
  apply StronglySorted_Sorted. unfold timestamps in *.
  induction events as [| e events IH]; [constructor |].
  cbn in Hs. apply StronglySorted_cons in Hs as [Hall Hs].
  rewrite filter_cons. destruct (decide (P e)); [| by apply IH].
  cbn. apply StronglySorted_cons. split; [| by apply IH].
  rewrite Forall_forall in Hall |- *. intros t Ht. apply Hall.
  apply list_elem_of_fmap in Ht as (e' & -> & He').
  apply list_elem_of_filter in He' as [_ He'].
  by apply list_elem_of_fmap_2.
Qed.

(** In a time-ordered sequence every timestamp lies between the first
    and the last. *)
Lemma sorted_bounds (ts : list Z) (first last_ t : Z) :
  Sorted Z.le ts -> head ts = Some first -> last ts = Some last_ ->
  t ∈ ts -> first <= t <= last_.
Proof.
  intros Hs Hh Hl Ht. apply (Sorted_StronglySorted Z.le) in Hs. split.
  - destruct ts as [| t0 ts]; [discriminate |]. injection Hh as ->.
    apply StronglySorted_cons in Hs as [Hall _].
    apply elem_of_cons in Ht as [-> | Ht]; [lia |].
    rewrite Forall_forall in Hall. by apply Hall.
  - apply last_Some in Hl as [ts' ->].
    apply elem_of_app in Ht as [Ht | Ht].
    + apply (StronglySorted_app_1_elem_of _ _ _ _ _ Hs Ht). set_solver.
    + apply list_elem_of_singleton in Ht as ->. lia.
Qed.

(** X7: On integer arguments of magnitude at most 2^51, where the code
    computes the truncated origin, both crop variants return exactly the
    aggregated events whose pixel lies in the half-open rectangle that
    starts at that origin; the events keep their sensor coordinates. *)
Theorem crop_keeps_exactly_the_rectangle (fuel : nat) (aedat4_file : string)
    (cx cy crop_width crop_height : Z) (out : logging.Output)
    (source : EventStore) (data' : R) :
  within_exact_range cx crop_width -> within_exact_range cy crop_height ->
  get_events_from fuel (fst (load_data_from aedat4_file out))
  = Some (source, data') ->
  exists cropped,
    Binary64._calculate_crop_origin (cx, cy) crop_width crop_height
    = Ok (Z.quot (2 * cx - crop_width) 2, Z.quot (2 * cy - crop_height) 2)
    /\ fst (crop_area fuel aedat4_file (cx, cy) crop_width crop_height out)
       = Some cropped
    /\ fst (crop_area_all_event_streams fuel aedat4_file (cx, cy)
              crop_width crop_height out)
       = Some cropped
    /\ forall e,
         e ∈ cropped
         <-> e ∈ source
             /\ Z.quot (2 * cx - crop_width) 2 <= x e
                < Z.quot (2 * cx - crop_width) 2 + crop_width
             /\ Z.quot (2 * cy - crop_height) 2 <= y e
                < Z.quot (2 * cy - crop_height) 2 + crop_height.
Proof.
  intros Hx Hy Hagg.
  destruct (crop_results _ _ (cx, cy) crop_width crop_height _ _ _ Hagg)
    as [Hpost Hstream].
  eexists. split; [exact (binary64_origin_pair cx cy _ _ Hx Hy) |].
  split; [exact Hpost |]. split; [exact Hstream |].
  intros e. rewrite list_elem_of_filter, contains_crop_rect. tauto.
Qed.



(** X10: The report of a non-empty crop of a time-ordered recording lies
    within the report of the whole recording: it starts no earlier, ends
    no later and counts no more events. *)
Theorem crop_report_within_source_report (fuel : nat) (aedat4_file : string)
    (center : Z * Z) (crop_width crop_height : Z) (out : logging.Output)
    (source cropped : EventStore) (data' : R) :
  get_events_from fuel (fst (load_data_from aedat4_file out))
  = Some (source, data') ->
  Sorted Z.le (timestamps source) ->
  fst (crop_area fuel aedat4_file center crop_width crop_height out)
  = Some cropped ->
  cropped <> [] ->
  exists first_s last_s first_c last_c,
    events_info source
    = Ok (StatsReport (last_s - first_s) first_s last_s (size source))
    /\ events_info cropped
       = Ok (StatsReport (last_c - first_c) first_c last_c (size cropped))
    /\ first_s <= first_c /\ first_c <= last_c /\ last_c <= last_s
    /\ last_c - first_c <= last_s - first_s
    /\ size cropped <= size source.
Proof.
  intros Hagg Hs Hcrop Hne.
  destruct (crop_results _ _ center crop_width crop_height _ _ _ Hagg)
    as [Hpost _].
  rewrite Hpost in Hcrop. injection Hcrop as <-.
  set (P := contains (crop_rect center crop_width crop_height)) in *.
  assert (Hsub : forall t, t ∈ timestamps (filter P source) -> t ∈ timestamps source).
  { intros t Ht. apply list_elem_of_fmap in Ht as (e & -> & He).
    apply list_elem_of_filter in He as [_ He]. by apply list_elem_of_fmap_2. }
  destruct (filter P source) as [| c0 crest] eqn:Hfilter; [done |].
  destruct (first_last_exist c0 crest) as (first_c & last_c & Hhc & Hlc).
  destruct source as [| s0 srest]; [discriminate Hfilter |].
  destruct (first_last_exist s0 srest) as (first_s & last_s & Hhs & Hls).
  exists first_s, last_s, first_c, last_c.
  split; [by apply events_info_nonempty |].
  split; [by apply events_info_nonempty |].
  assert (Hfc : first_c ∈ timestamps (c0 :: crest)).
  { apply head_Some in Hhc as [? ->]. apply list_elem_of_here. }
  assert (Hlc' : last_c ∈ timestamps (c0 :: crest)).
  { apply last_Some in Hlc as [? ->]. apply elem_of_app. right.
    by apply list_elem_of_singleton. }
  pose proof (sorted_bounds _ _ _ _ Hs Hhs Hls (Hsub _ Hfc)).
  pose proof (sorted_bounds _ _ _ _ Hs Hhs Hls (Hsub _ Hlc')).
  assert (Hsc : Sorted Z.le (timestamps (c0 :: crest))).
  { rewrite <- Hfilter. by apply filter_keeps_time_order. }
  pose proof (sorted_head_le_last _ _ _ Hsc Hhc Hlc).
  assert (Hlen : size (c0 :: crest) <= size (s0 :: srest)).
  { rewrite <- Hfilter. unfold size.
    pose proof (length_filter P (s0 :: srest)). lia. }
  lia.
Qed.



End CropFacts.

(** ** More on the statistics report *)

Section ReportFacts.

(** X13: A report that [events_info] returns never counts zero events;
    for a time-ordered collection its first timestamp is moreover at
    most its last and its duration is not negative. *)
Theorem events_info_report_bounds (events : EventStore)
    (report : gmap string Value) :
  events_info events = Ok report ->
  exists first last_,
    report = StatsReport (last_ - first) first last_ (size events)
    /\ 1 <= size events
    /\ (Sorted Z.le (timestamps events) ->
        first <= last_ /\ 0 <= last_ - first).
Proof.
  intros Hok. destruct events as [| e0 rest]; [discriminate Hok |].
  destruct (first_last_exist e0 rest) as (first & last_ & Hh & Hl).
  rewrite (events_info_nonempty _ _ _ Hh Hl) in Hok. injection Hok as <-.
  exists first, last_. split; [done |]. split.
  - unfold size. cbn [length]. lia.
  - intros Hs. pose proof (sorted_head_le_last _ _ _ Hs Hh Hl). lia.
Qed.

(** X14: The report of a store to which a second store was added: the first
    timestamp is that of the first store, the last timestamp that of the
    added store, and the count is the sum of both sizes. *)
Theorem events_info_add (a b : EventStore) (first last_ : Z) :
  head (timestamps a) = Some first ->
  last (timestamps b) = Some last_ ->
  events_info (add a b)
  = Ok (StatsReport (last_ - first) first last_ (size a + size b)).
Proof.
  intros Hh Hl. rewrite <- size_add. apply events_info_nonempty.
  - unfold timestamps, add. rewrite fmap_app. apply head_app_Some. by left.
  - unfold timestamps, add. rewrite fmap_app. apply last_app_Some. by left.
Qed.

End ReportFacts.

(** ** The preview *)

Section PreviewFacts.

Context {R : Type} {reader : MonoCameraRecording R}.
Context {Image : Type} {imaging : Imaging Image}.


(** X16: While the reader keeps reporting that it is running, the preview
    shows nothing: it gets no further than its first traversal, with the
    recording opened once. *)
Theorem crop_preview_area_waits (fuel : nat) (aedat4_file : string)
    (center : Z * Z) (crop_width crop_height : Z)
    (out : logging.Output) (calls : list (plt.Call Image)) :
  (forall n, (n < fuel)%nat -> isRunning (reader_after n (open aedat4_file)) = true) ->
  crop_preview_area fuel aedat4_file center crop_width crop_height out calls
  = (None, snd (load_data_from aedat4_file out), calls).
Proof.
  intros Hrun. unfold crop_preview_area.
  pose proof (load_data_from_reader aedat4_file out) as Hfst.
  destruct (load_data_from aedat4_file out) as [data out1].
  cbn in Hfst. subst data.
  destruct (get_events_from fuel (open aedat4_file)) as [[events data'] |] eqn:Hagg;
    [| reflexivity].
  apply loop_returns_stopped in Hagg as (n & Hn & Hs & _).
  apply stops_after_not_running in Hs. rewrite Hrun in Hs by done. discriminate.
Qed.

End PreviewFacts.

(** ** Further concrete runs *)

Section MoreRuns.

#[local] Existing Instance sample.
#[local] Existing Instance pictures.

Let recording : Scripted := sample_disk "events.aedat4".
Let aggregate : EventStore := concat (non_null sample_script).

Lemma get_events_from_drained_reader_witness :
  get_events_from 1 (reader_after 4 recording)
  = Some (EventStore_new, reader_after 4 recording).
Proof.
  apply (get_events_from_drained_reader 5 1 recording (reader_after 4 recording)
           aggregate).
  - vm_compute. reflexivity.
  - lia.
Defined.

Lemma crop_keeps_exactly_the_rectangle_witness :
  exists cropped,
    Binary64._calculate_crop_origin (173, 130) 100 100
    = Ok (Z.quot (2 * 173 - 100) 2, Z.quot (2 * 130 - 100) 2)
    /\ fst (crop_area 5 "events.aedat4" (173, 130) 100 100 []) = Some cropped
    /\ fst (crop_area_all_event_streams 5 "events.aedat4" (173, 130) 100 100 [])
       = Some cropped
    /\ forall e,
         e ∈ cropped
         <-> e ∈ aggregate
             /\ Z.quot (2 * 173 - 100) 2 <= x e < Z.quot (2 * 173 - 100) 2 + 100
             /\ Z.quot (2 * 130 - 100) 2 <= y e < Z.quot (2 * 130 - 100) 2 + 100.
Proof.
  apply (crop_keeps_exactly_the_rectangle 5 "events.aedat4" 173 130 100 100 []
           aggregate (reader_after 4 recording)).
  - split; vm_compute; discriminate.
  - split; vm_compute; discriminate.
  - vm_compute. reflexivity.
Defined.



Lemma crop_report_within_source_report_witness :
  exists first_s last_s first_c last_c,
    events_info aggregate
    = Ok (StatsReport (last_s - first_s) first_s last_s (size aggregate))
    /\ events_info [ev 100 130 90; ev 150 200 100; ev 300 173 130]
       = Ok (StatsReport (last_c - first_c) first_c last_c
               (size [ev 100 130 90; ev 150 200 100; ev 300 173 130]))
    /\ first_s <= first_c /\ first_c <= last_c /\ last_c <= last_s
    /\ last_c - first_c <= last_s - first_s
    /\ size [ev 100 130 90; ev 150 200 100; ev 300 173 130] <= size aggregate.
Proof.
  apply (crop_report_within_source_report 5 "events.aedat4" (173, 130) 100 100 []
           aggregate [ev 100 130 90; ev 150 200 100; ev 300 173 130]
           (reader_after 4 recording)).
  - vm_compute. reflexivity.
  - apply (bool_decide_unpack _). vm_compute. exact I.
  - vm_compute. reflexivity.
  - discriminate.
Defined.


Lemma events_info_report_bounds_witness :
  exists first last_,
    StatsReport (-200) 300 100 2
    = StatsReport (last_ - first) first last_ (size [ev 300 1 1; ev 100 2 2])
    /\ 1 <= size [ev 300 1 1; ev 100 2 2]
    /\ (Sorted Z.le (timestamps [ev 300 1 1; ev 100 2 2]) ->
        first <= last_ /\ 0 <= last_ - first).
Proof.
  apply (events_info_report_bounds [ev 300 1 1; ev 100 2 2]).
  by rewrite (events_info_nonempty _ 300 100).
Defined.

Lemma events_info_add_witness :
  events_info (add [ev 100 1 1; ev 150 2 2] [ev 300 3 3])
  = Ok (StatsReport (300 - 100) 100 300
          (size [ev 100 1 1; ev 150 2 2] + size [ev 300 3 3])).
Proof.
  apply (events_info_add [ev 100 1 1; ev 150 2 2] [ev 300 3 3] 100 300);
    reflexivity.
Defined.


Lemma crop_preview_area_waits_witness :
  crop_preview_area 2 "events.aedat4" (173, 130) 100 100 [] []
  = (None, snd (load_data_from "events.aedat4" []), []).
Proof.
  apply (crop_preview_area_waits 2 "events.aedat4" (173, 130) 100 100 [] []).
  intros n Hn. destruct n as [| [| n]]; [reflexivity | reflexivity | lia].
Defined.

End MoreRuns.

(** ** Writing a collection and reading it back *)

Section RoundTrip.

Variable packets : EventStore -> list (option EventStore).




End RoundTrip.

(** ** Runs of the crop origin, the geometry and the round trip *)

Section ContractRuns.

#[local] Existing Instance sample.

Lemma crop_origin_floor_exactly_when_witness :
  (Binary64._calculate_crop_origin (173, 130) 100 100
   = Ok (floor_origin (173, 130) 100 100)
   <-> (100 <= 2 * 173 \/ Z.even 100 = true)
       /\ (100 <= 2 * 130 \/ Z.even 100 = true))
  /\ Binary64._calculate_crop_origin (173, 130) 100 100 = Ok (123, 80)
  /\ Binary64._calculate_crop_origin (0, 0) 3 5 = Ok (-1, -2).
Proof.
  apply (crop_origin_floor_exactly_when 173 130 100 100);
    split; vm_compute; discriminate.
Defined.

Lemma crop_origin_truncates_toward_zero_witness :
  exists ox oy,
    Binary64._calculate_crop_origin (0, 0) 3 5 = Ok (ox, oy)
    /\ (ox, oy) = truncated_origin (0, 0) 3 5
    /\ (Z.abs (2 * ox) <= Z.abs (2 * 0 - 3) < Z.abs (2 * ox) + 2
        /\ 0 <= ox * (2 * 0 - 3))
    /\ (Z.abs (2 * oy) <= Z.abs (2 * 0 - 5) < Z.abs (2 * oy) + 2
        /\ 0 <= oy * (2 * 0 - 5))
    /\ (midpoint 0 3 == - (3 # 2))%Q
    /\ Binary64._calculate_crop_origin (0, 0) 3 5 = Ok (-1, -2).
Proof.
  apply (crop_origin_truncates_toward_zero 0 0 3 5);
    split; vm_compute; discriminate.
Defined.

Lemma crop_rect_contains_center_witness :
  exists ox oy,
    Binary64._calculate_crop_origin (173, 130) 100 100 = Ok (ox, oy)
    /\ (contains (ox, oy, 100, 100) (ev 0 173 130)
        <-> (2 <= 100 \/ 173 <= 0) /\ (2 <= 100 \/ 130 <= 0)).
Proof.
  apply (crop_rect_contains_center 173 130 100 100 0);
    try (split; vm_compute; discriminate); lia.
Defined.

Lemma crop_origin_negative_iff_witness :
  exists ox oy,
    Binary64._calculate_crop_origin (10, 130) 100 100 = Ok (ox, oy)
    /\ (ox < 0 <-> 2 * 10 + 2 <= 100)
    /\ (oy < 0 <-> 2 * 130 + 2 <= 100).
Proof.
  apply (crop_origin_negative_iff 10 130 100 100);
    split; vm_compute; discriminate.
Defined.

Lemma crop_rect_inside_sensor_witness :
  exists ox oy,
    Binary64._calculate_crop_origin (173, 130) 100 100 = Ok (ox, oy)
    /\ forall e, contains (ox, oy, 100, 100) e ->
         0 <= x e < 346 /\ 0 <= y e < 260.
Proof.
  apply (crop_rect_inside_sensor 173 130 100 100 346 260);
    try (split; vm_compute; discriminate); lia.
Defined.

Lemma crop_origin_shift_witness :
  exists ox ox' oy,
    Binary64._calculate_crop_origin (1, 0) 3 5 = Ok (ox, oy)
    /\ Binary64._calculate_crop_origin (1 + 1, 0) 3 5 = Ok (ox', oy)
    /\ (ox' = ox + 1 <-> 2 * 1 - 3 <> -1)
    /\ (2 * 1 - 3 = -1 -> ox' = 0 /\ ox = 0).
Proof.
  apply (crop_origin_shift 1 0 3 5); split; vm_compute; discriminate.
Defined.


End ContractRuns.
